(** * PaddleNLP experimental Qwen inference wrapper

    A shallow embedding of
    [paddlenlp/experimental/transformers/qwen/modeling.py]:
    the glue code of [QWenInferenceModel] and
    [QWenForCausalLMInferenceModel] around the fused transformer
    primitive.  Tensors are a dtype tag, a shape and row-major data;
    Python exceptions are values of a result type; calls into the native
    operator library are recorded in a trace. *)

From Stdlib Require Import ZArith QArith Qround List String Bool Lia DecimalString.
From stdpp Require Import base gmap strings list.

Local Open Scope string_scope.
Local Open Scope list_scope.
Local Open Scope nat_scope.

(* ================================================================= *)
(** ** Python exceptions and the state-and-exception monad *)

Module Py.

Inductive exn_kind :=
| ValueError | TypeError | IndexError | KeyError
| AttributeError | ZeroDivisionError | UnboundLocalError.

Record exn := Exn { exn_kind_of : exn_kind; exn_msg : string }.

Inductive result (A : Type) :=
| Ok (a : A)
| Raise (e : exn).
Arguments Ok {A} a.
Arguments Raise {A} e.

Definition rbind {A B} (r : result A) (k : A -> result B) : result B :=
  match r with
  | Ok a => k a
  | Raise e => Raise e
  end.

(** A computation over a store [S]: what was done before an exception
    stays done, as in Python. *)
Definition M (S A : Type) := S -> result A * S.

Definition ret {S A} (a : A) : M S A := fun s => (Ok a, s).
Definition raise {S A} (e : exn) : M S A := fun s => (Raise e, s).
Definition bind {S A B} (c : M S A) (k : A -> M S B) : M S B :=
  fun s => match c s with
           | (Ok a, s') => k a s'
           | (Raise e, s') => (Raise e, s')
           end.
Definition lift {S A} (r : result A) : M S A := fun s => (r, s).
Definition get {S} : M S S := fun s => (Ok s, s).
Definition modify {S} (f : S -> S) : M S unit := fun s => (Ok tt, f s).

(** [for i in range(n): body i] *)
Fixpoint for_each {S A} (l : list A) (body : A -> M S unit) : M S unit :=
  match l with
  | [] => ret tt
  | x :: l' => bind (body x) (fun _ => for_each l' body)
  end.
Definition for_range {S} (n : nat) (body : nat -> M S unit) : M S unit :=
  for_each (seq 0 n) body.

End Py.
Import Py.

Notation "'let*' x := c1 'in' c2" := (bind c1 (fun x => c2))
  (at level 10, x name, c1 at level 200, c2 at level 200).
Notation "'let*' ' pat := c1 'in' c2" :=
  (bind c1 (fun x => match x with pat => c2 end))
  (at level 10, pat pattern, c1 at level 200, c2 at level 200).
Notation "'let+' x := c1 'in' c2" := (rbind c1 (fun x => c2))
  (at level 10, x name, c1 at level 200, c2 at level 200).
Notation "'let+' ' pat := c1 'in' c2" :=
  (rbind c1 (fun x => match x with pat => c2 end))
  (at level 10, pat pattern, c1 at level 200, c2 at level 200).

(* ================================================================= *)
(** ** Tensors *)

Module Tensor.

Inductive dtype :=
| DBool | DInt8 | DInt32 | DInt64
| DFloat16 | DBFloat16 | DFloat32 | DFloat64.

Definition dtype_eqb (a b : dtype) : bool :=
  match a, b with
  | DBool, DBool | DInt8, DInt8 | DInt32, DInt32 | DInt64, DInt64
  | DFloat16, DFloat16 | DBFloat16, DBFloat16
  | DFloat32, DFloat32 | DFloat64, DFloat64 => true
  | _, _ => false
  end.

(** The width of an integer dtype. *)
Definition int_bits (dt : dtype) : option Z :=
  match dt with
  | DInt8 => Some 8%Z
  | DInt32 => Some 32%Z
  | DInt64 => Some 64%Z
  | _ => None
  end.

(** The value an integer dtype stores for the integer [z]: two's
    complement wrap-around at the dtype's width. *)
Definition wrap (dt : dtype) (z : Z) : Z :=
  match int_bits dt with
  | Some w => ((z + 2 ^ (w - 1)) mod 2 ^ w - 2 ^ (w - 1))%Z
  | None => z
  end.

(** The precision (bits of the significand, the hidden one included) and
    the least and greatest exponent of a floating-point dtype. *)
Definition float_format (dt : dtype) : option (Z * Z * Z) :=
  match dt with
  | DFloat16 => Some (11, -14, 15)%Z
  | DBFloat16 => Some (8, -126, 127)%Z
  | DFloat32 => Some (24, -126, 127)%Z
  | DFloat64 => Some (53, -1022, 1023)%Z
  | _ => None
  end.

Definition is_float (dt : dtype) : bool :=
  match float_format dt with Some _ => true | None => false end.

(** [q] is a finite value of the floating-point dtype [dt]: zero, or
    [m * 2^e] up to sign, with [m] odd and of at most [prec] bits,
    [emin - prec + 1 <= e] and [e + bits(m) - 1 <= emax]. *)
Definition representable (dt : dtype) (q : Q) : bool :=
  match float_format dt with
  | None => false
  | Some (prec, emin, emax) =>
      let r := Qred q in
      let n := Z.abs (Qnum r) in
      let d := Zpos (Qden r) in
      if (n =? 0)%Z then true
      else
        let k := Z.log2 d in
        let j := Z.log2 (Z.land n (- n)) in
        let m := Z.shiftr n j in
        (d =? 2 ^ k)%Z && (Z.log2 m <? prec)%Z
        && (emin - prec + 1 <=? j - k)%Z && (j - k + Z.log2 m <=? emax)%Z
  end.

(** A tensor: dtype tag, shape, and the elements in row-major order. *)
Record tensor (A : Type) := mkTensor {
  t_dtype : dtype;
  t_shape : list nat;
  t_data : list A
}.
Arguments mkTensor {A} _ _ _.
Arguments t_dtype {A} _.
Arguments t_shape {A} _.
Arguments t_data {A} _.

Definition numel (sh : list nat) : nat := fold_right Nat.mul 1 sh.

(** Row-major offset of a multi-index. *)
Fixpoint ravel (sh idx : list nat) : nat :=
  match sh, idx with
  | d :: sh', i :: idx' => i * numel sh' + ravel sh' idx'
  | _, _ => 0
  end.

(** All multi-indices of a shape, in row-major order. *)
Fixpoint all_indices (sh : list nat) : list (list nat) :=
  match sh with
  | [] => [[]]
  | d :: sh' => flat_map (fun i => map (cons i) (all_indices sh')) (seq 0 d)
  end.

Definition in_range (sh idx : list nat) : Prop := Forall2 lt idx sh.

(** The tensor of shape [sh] whose entry at [idx] is [f idx]. *)
Definition tinit {A} (dt : dtype) (sh : list nat) (f : list nat -> A) : tensor A :=
  mkTensor dt sh (map f (all_indices sh)).

(** [t[idx]], with [d] for an index outside the data. *)
Definition tget {A} (d : A) (t : tensor A) (idx : list nat) : A :=
  nth (ravel (t_shape t) idx) (t_data t) d.

Definition tmap {A B} (dt : dtype) (f : A -> B) (t : tensor A) : tensor B :=
  mkTensor dt (t_shape t) (map f (t_data t)).

(** Python's [l[i]] on a shape list. *)
Definition shape_index (sh : list nat) (i : nat) : result nat :=
  match nth_error sh i with
  | Some d => Ok d
  | None => Raise (Exn IndexError "list index out of range")
  end.

(** Python's [l[-1]] on a shape list. *)
Definition shape_last (sh : list nat) : result nat :=
  match rev sh with
  | d :: _ => Ok d
  | [] => Raise (Exn IndexError "list index out of range")
  end.

(** *** Broadcasting *)

(** The index into a tensor of shape [sh] that a result index [idx]
    reads when the tensor is broadcast: leading result axes are dropped
    and an axis of size one is read at zero. *)
Definition bidx (sh idx : list nat) : list nat :=
  zip_with (fun d i => if d =? 1 then 0 else i) sh
           (skipn (length idx - length sh) idx).

Fixpoint expand_ok_aligned (sh target : list nat) : bool :=
  match sh, target with
  | [], [] => true
  | d :: sh', t :: target' => ((d =? t) || (d =? 1)) && expand_ok_aligned sh' target'
  | _, _ => false
  end.

(** [x.expand(target)] is accepted when the trailing axes of [target]
    match the axes of [x] or meet an axis of size one. *)
Definition expand_ok (sh target : list nat) : bool :=
  (length sh <=? length target) &&
  expand_ok_aligned sh (skipn (length target - length sh) target).

Definition expand {A} (d : A) (x : tensor A) (target : list nat) : result (tensor A) :=
  if expand_ok (t_shape x) target
  then Ok (tinit (t_dtype x) target (fun idx => tget d x (bidx (t_shape x) idx)))
  else Raise (Exn ValueError "expand: the shape of the input cannot be expanded to the target shape").

Fixpoint broadcast_aligned (a b : list nat) : option (list nat) :=
  match a, b with
  | [], [] => Some []
  | x :: a', y :: b' =>
      match broadcast_aligned a' b' with
      | Some r =>
          if x =? y then Some (x :: r)
          else if x =? 1 then Some (y :: r)
          else if y =? 1 then Some (x :: r)
          else None
      | None => None
      end
  | _, _ => None
  end.

Definition pad_left (n : nat) (sh : list nat) : list nat :=
  repeat 1 (n - length sh) ++ sh.

Definition broadcast_shapes (a b : list nat) : option (list nat) :=
  let n := Nat.max (length a) (length b) in
  broadcast_aligned (pad_left n a) (pad_left n b).

(** *** The framework's tensor operations used by the wrapper *)

(** [paddle.ones(sh, dtype="bool")] *)
Definition ones_bool (sh : list nat) : tensor bool :=
  tinit DBool sh (fun _ => true).

(** The lower-triangle test on the last two axes: column [<=] row. *)
Definition tril_keep (idx : list nat) : bool :=
  match rev idx with
  | k :: q :: _ => k <=? q
  | _ => true
  end.

(** [paddle.tril(x)] on a boolean tensor. *)
Definition tril (x : tensor bool) : tensor bool :=
  tinit (t_dtype x) (t_shape x)
        (fun idx => if tril_keep idx then tget false x idx else false).

(** [np.concatenate([a, b], axis=-1)]: all axes but the last must
    agree. *)
Definition concat_last {A} (d : A) (a b : tensor A) : result (tensor A) :=
  match rev (t_shape a), rev (t_shape b) with
  | la :: ra, lb :: rb =>
      if decide (ra = rb) then
        Ok (tinit (t_dtype a) (rev ra ++ [la + lb])
              (fun idx =>
                 let k := List.last idx 0 in
                 let pre := removelast idx in
                 if k <? la then tget d a (pre ++ [k])
                 else tget d b (pre ++ [k - la])))
      else Raise (Exn ValueError "concat: all the input array dimensions except for the concatenation axis must match exactly")
  | _, _ => Raise (Exn ValueError "concat: zero-dimensional arrays cannot be concatenated")
  end.

(** [paddle.concat([a, b], axis=-1)]: as [concat_last], but refused when
    the inputs hold no element. *)
Definition paddle_concat_last {A} (d : A) (a b : tensor A) : result (tensor A) :=
  if (numel (t_shape a) =? 0) && (numel (t_shape b) =? 0)
  then Raise (Exn ValueError "concat: the inputs hold no element")
  else concat_last d a b.

(** [x.unsqueeze(axis)]: a new axis of size one at each position of
    [axes], inserted in turn; the data is untouched. *)
Definition unsqueeze {A} (axes : list nat) (x : tensor A) : tensor A :=
  mkTensor (t_dtype x)
    (fold_left (fun sh ax => firstn ax sh ++ 1 :: skipn ax sh) axes (t_shape x))
    (t_data x).

(** [x.astype("bool")]: non-zero is [True]. *)
Definition astype_bool (x : tensor Q) : tensor bool :=
  tmap DBool (fun v => negb (Qeq_bool v 0)) x.

(** [a & b] on boolean tensors, with broadcasting. *)
Definition tand (a b : tensor bool) : result (tensor bool) :=
  match broadcast_shapes (t_shape a) (t_shape b) with
  | Some sh =>
      Ok (tinit DBool sh
            (fun idx => tget false a (bidx (t_shape a) idx)
                        && tget false b (bidx (t_shape b) idx)))
  | None => Raise (Exn ValueError "bitwise_and: operands could not be broadcast together")
  end.

(** [paddle.zeros(sh, dtype=dt)] *)
Definition zeros (sh : list nat) (dt : dtype) : tensor Q :=
  tinit dt sh (fun _ => 0%Q).

(** [paddle.full_like(x, v, dtype=dt)] *)
Definition full_like {A} (x : tensor A) (v : Q) (dt : dtype) : tensor Q :=
  tinit dt (t_shape x) (fun _ => v).

(** [paddle.where(c, x, y)] for operands of the shape of [c]. *)
Definition where_ (c : tensor bool) (x y : tensor Q) : tensor Q :=
  tinit (t_dtype x) (t_shape c)
        (fun idx => if tget false c idx then tget 0%Q x idx else tget 0%Q y idx).

(** [paddle.finfo(dt).min]: the most negative finite value of a
    floating-point dtype; other dtypes are refused. *)
Definition finfo_min (dt : dtype) : result Q :=
  match dt with
  | DFloat16 => Ok (-(65504))%Q
  | DBFloat16 => Ok (-((2 ^ 8 - 1) * 2 ^ 120))%Q
  | DFloat32 => Ok (-((2 ^ 24 - 1) * 2 ^ 104))%Q
  | DFloat64 => Ok (-((2 ^ 53 - 1) * 2 ^ 971))%Q
  | _ => Raise (Exn ValueError "finfo: the dtype is not a floating-point type")
  end.

(** [x.reshape(sh)]: the element count must be kept. *)
Definition reshape {A} (x : tensor A) (sh : list nat) : result (tensor A) :=
  if numel sh =? length (t_data x)
  then Ok (mkTensor (t_dtype x) sh (t_data x))
  else Raise (Exn ValueError "reshape: the number of elements does not match the target shape").

(** *** Reductions over an integer tensor, all on the flattened data *)

(** The sum of a list of integers. *)
Definition zsum (l : list Z) : Z := fold_right Z.add 0%Z l.

(** The dtype [paddle.sum] answers in: [bool] and [int32] are summed in
    [int64], every other dtype in itself. *)
Definition sum_dtype (dt : dtype) : dtype :=
  match dt with
  | DBool | DInt32 => DInt64
  | _ => dt
  end.

(** [paddle.sum(x)] *)
Definition tsum (x : tensor Z) : Z := wrap (sum_dtype (t_dtype x)) (zsum (t_data x)).

(** [paddle.max(x)]: refused on an empty tensor. *)
Definition tmax (x : tensor Z) : result Z :=
  match t_data x with
  | [] => Raise (Exn ValueError "max: the input tensor is empty")
  | v :: vs => Ok (fold_left Z.max vs v)
  end.

(** Running sums of a list, from the left, each stored in [dt]. *)
Fixpoint cumsum_from (dt : dtype) (acc : Z) (l : list Z) : list Z :=
  match l with
  | [] => []
  | v :: l' =>
      let acc' := wrap dt (acc + v) in
      acc' :: cumsum_from dt acc' l'
  end.

(** [paddle.cumsum(x)] with no axis: the running sums of the flattened
    tensor, as a one-dimensional tensor of the dtype of [x]. *)
Definition cumsum (x : tensor Z) : tensor Z :=
  mkTensor (t_dtype x) [length (t_data x)] (cumsum_from (t_dtype x) 0%Z (t_data x)).

(** [s - x] for a scalar tensor [s] of the dtype of [x]. *)
Definition rsub_scalar (s : Z) (x : tensor Z) : tensor Z :=
  tmap (t_dtype x) (fun v => wrap (t_dtype x) (s - v)) x.

End Tensor.
Import Tensor.

(* ================================================================= *)
(** ** Python values that reach the wrapper untyped *)

Module PyObj.

(** Values of keyword arguments and of the [cache] marker. *)
#[warnings="-register-all"]
Inductive pyobj :=
| PyNone
| PyInt (z : Z)
| PyFloat (q : Q)
| PyIntTensor (t : tensor Z)
| PyTensor (t : tensor Q)
| PyTuple (l : list pyobj)
| PyList (l : list pyobj).

Definition is_none (o : pyobj) : bool :=
  match o with PyNone => true | _ => false end.

(** [len(o)] *)
Definition py_len (o : pyobj) : result nat :=
  match o with
  | PyTuple l | PyList l => Ok (length l)
  | PyIntTensor t =>
      match t_shape t with
      | d :: _ => Ok d
      | [] => Raise (Exn TypeError "len() of a 0-D tensor")
      end
  | PyTensor t =>
      match t_shape t with
      | d :: _ => Ok d
      | [] => Raise (Exn TypeError "len() of a 0-D tensor")
      end
  | PyInt _ => Raise (Exn TypeError "object of type 'int' has no len()")
  | PyFloat _ => Raise (Exn TypeError "object of type 'float' has no len()")
  | PyNone => Raise (Exn TypeError "object of type 'NoneType' has no len()")
  end.

(** [t[i]] on a tensor: the [i]-th slice along the first axis. *)
Definition tensor_item {A} (t : tensor A) (i : nat) : result (tensor A) :=
  match t_shape t with
  | d :: sh =>
      if i <? d
      then Ok (mkTensor (t_dtype t) sh
                 (firstn (numel sh) (skipn (i * numel sh) (t_data t))))
      else Raise (Exn IndexError "index is out of bounds for the first axis")
  | [] => Raise (Exn IndexError "too many indices for a 0-D tensor")
  end.

(** [o[i]] for a non-negative [i]. *)
Definition py_getitem (o : pyobj) (i : nat) : result pyobj :=
  match o with
  | PyTuple l =>
      match nth_error l i with
      | Some x => Ok x
      | None => Raise (Exn IndexError "tuple index out of range")
      end
  | PyList l =>
      match nth_error l i with
      | Some x => Ok x
      | None => Raise (Exn IndexError "list index out of range")
      end
  | PyIntTensor t => let+ x := tensor_item t i in Ok (PyIntTensor x)
  | PyTensor t => let+ x := tensor_item t i in Ok (PyTensor x)
  | PyInt _ => Raise (Exn TypeError "'int' object is not subscriptable")
  | PyFloat _ => Raise (Exn TypeError "'float' object is not subscriptable")
  | PyNone => Raise (Exn TypeError "'NoneType' object is not subscriptable")
  end.

(** [o.shape] *)
Definition py_shape (o : pyobj) : result (list nat) :=
  match o with
  | PyIntTensor t => Ok (t_shape t)
  | PyTensor t => Ok (t_shape t)
  | _ => Raise (Exn AttributeError "object has no attribute 'shape'")
  end.

(** [[None] * n] as a tuple. *)
Definition none_tuple (n : nat) : pyobj := PyTuple (repeat PyNone n).

(** [kwargs.get(key, None)] *)
Definition kwargs_get (kwargs : gmap string pyobj) (key : string) : pyobj :=
  match kwargs !! key with
  | Some v => v
  | None => PyNone
  end.

(** [a // b] on Python integers. *)
Definition py_floordiv (a b : Z) : result Z :=
  if (b =? 0)%Z
  then Raise (Exn ZeroDivisionError "integer division or modulo by zero")
  else Ok (a / b)%Z.

(** [d[key]] on a dictionary. *)
Definition dict_getitem {V} (d : gmap string V) (key : string) : result V :=
  match d !! key with
  | Some v => Ok v
  | None => Raise (Exn KeyError key)
  end.

(** [l[i]] on a list. *)
Definition list_getitem {V} (l : list V) (i : nat) : result V :=
  match l !! i with
  | Some v => Ok v
  | None => Raise (Exn IndexError "list index out of range")
  end.

(** ["{}".format(idx)] for a non-negative integer. *)
Definition format_nat (idx : nat) : string :=
  NilZero.string_of_uint (Nat.to_uint idx).

End PyObj.
Import PyObj.

(* ================================================================= *)
(** ** Configuration, parameters and the external operators *)

(** [QWenConfig]: the fields the wrapper reads.  [num_hidden_layers] is
    an integer: it is what [range] iterates over and what
    [FusedMultiTransformerConfig] takes as [num_layers]. *)
Module QWenConfig.
Record t := mk {
  vocab_size : Z;
  hidden_size : Z;
  num_attention_heads : Z;
  intermediate_size : Z;
  num_hidden_layers : Z;
  layer_norm_epsilon : Q;
  max_position_embeddings : Z;
  emb_dropout_prob : Q;
  output_attentions : bool;
  output_hidden_states : bool;
  use_cache : bool;
  use_return_dict : bool;
  tensor_parallel_output : bool;
  tensor_parallel_degree : Z
}.
End QWenConfig.

(** The packed parameter slots of [FusedMultiTransformerBase]. *)
Module FusedMultiTransformerBase.
Record t := mk {
  ln_scales : list (tensor Q);
  qkv_weights : list (tensor Q);
  qkv_biases : list (tensor Q);
  linear_weights : list (tensor Q);
  ffn_ln_scales : list (tensor Q);
  ffn1_weights : list (tensor Q);
  ffn2_weights : list (tensor Q)
}.

(** The keyword arguments of one call of the fused block. *)
Record call_args := mkCall {
  input_ids : option (tensor Z);
  src : tensor Q;
  cum_offsets : option (tensor Z);
  padding_offset : option (tensor Z);
  attn_mask : tensor Q;
  caches : option (list (tensor Q));
  pre_caches : option (list (tensor Q));
  pre_caches_length : Z;
  seq_lens : option (tensor Z);
  rotary_embs : tensor Q;
  rotary_emb_dims : Z;
  time_step : option Z
}.
End FusedMultiTransformerBase.

(** What [fused_rms_norm] hands back: a tensor, or a tuple of them. *)
Inductive rms_result :=
| RmsTensor (t : tensor Q)
| RmsTuple (l : list (tensor Q)).

(** The deep-learning framework and the native operator library, as far
    as the wrapper calls into them.  All of it is opaque to this file. *)
Class Framework := {
  (** [paddle.to_tensor(data, dtype=...)] *)
  to_tensor : tensor Q -> option dtype -> tensor Q;
  (** [param.set_value(value)]: the new content of [param] *)
  set_value : tensor Q -> tensor Q -> tensor Q;
  (** the value of a floating-point dtype that a kernel stores for the
      real number it computes *)
  round_to : dtype -> Q -> Q;
  (** [x - n] on a tensor of dtype [bool] *)
  bool_sub_int : tensor Q -> Z -> tensor Q;
  (** [paddle.cast(x, dtype)] to a dtype other than the tensor's own *)
  cast_to : dtype -> tensor Q -> tensor Q;
  (** [nn.Embedding]: weight, ids *)
  embedding : tensor Q -> tensor Z -> tensor Q;
  (** [paddlenlp_ops.get_padding_offset]; its outputs are
      [x_remove_padding], [cum_offsets_out], [padding_offset] *)
  get_padding_offset :
    option (tensor Z) -> tensor Z -> Z -> tensor Z ->
    tensor Z * tensor Z * tensor Z;
  (** [paddlenlp_ops.fused_get_rotary_embedding] *)
  fused_get_rotary_embedding :
    option (tensor Z) -> option (tensor Z) -> tensor Z -> Z -> bool -> tensor Q;
  (** [FusedMultiTransformerBase.__call__] *)
  fused_multi_transformer :
    FusedMultiTransformerBase.t -> FusedMultiTransformerBase.call_args ->
    tensor Q * list (tensor Q);
  (** [paddle.incubate.nn.functional.fused_rms_norm]: x, weight, eps *)
  fused_rms_norm : tensor Q -> tensor Q -> Q -> rms_result;
  (** [QWenLMHead]: weight, hidden states, tensor_parallel_output *)
  lm_head_forward : tensor Q -> tensor Q -> bool -> tensor Q;
  (** [QWenPretrainingCriterion]: logits, labels *)
  criterion_forward : tensor Q -> tensor Z -> tensor Q
}.

(** One entry of the trace per call into the native library or into a
    layer of the framework. *)
Inductive event :=
| CallGetPaddingOffset (input_ids : option (tensor Z))
    (cum_offsets_now : tensor Z) (token_num : Z) (seq_lens_this_time : tensor Z)
| CallEmbedding (weight : tensor Q) (ids : tensor Z)
| CallRotary (input_ids position_ids : option (tensor Z))
    (head_dim_shape_tensor : tensor Z) (position_offset : Z) (use_neox : bool)
| CallBlock (c : FusedMultiTransformerBase.call_args)
| CallRmsNorm (x weight : tensor Q) (eps : Q)
| CallLmHead (hidden_states : tensor Q) (tensor_parallel_output : bool)
| CallCriterion (lm_logits : tensor Q) (labels : tensor Z).

Definition trace := list event.

(** Record the call, return what the operator returned. *)
Definition call {A} (e : event) (r : A) : M trace A :=
  fun tr => (Ok r, tr ++ [e]).

(** A postcondition on a traced computation: from every trace it only
    appends events, and [Q] holds of its outcome and what it appended. *)
Definition post {A} (c : M trace A) (Q : result A -> list event -> Prop) : Prop :=
  forall tr, exists evs, snd (c tr) = tr ++ evs /\ Q (fst (c tr)) evs.

(** [paddle.cast(x, dtype)] *)
Definition cast `{Framework} (x : tensor Q) (dt : dtype) : tensor Q :=
  if dtype_eqb (t_dtype x) dt then x else cast_to dt x.

(* ================================================================= *)
(** ** Calls and operators of Python on tensors *)

Section Operators.
Context `{Framework}.

(** [param.set_value(value, **kwargs)]: the method takes [value] alone,
    so a keyword argument ends the call in a [TypeError]. *)
Definition py_set_value (param value : tensor Q) (dtype_kw : option dtype)
  : result (tensor Q) :=
  match dtype_kw with
  | None => Ok (set_value param value)
  | Some _ =>
      Raise (Exn TypeError "set_value() got an unexpected keyword argument 'dtype'")
  end.

(** [x - n] on a tensor, entry by entry in the dtype of [x]: rounded for
    a floating-point dtype, wrapped around for an integer one. *)
Definition tensor_sub_int (x : tensor Q) (n : Z) : tensor Q :=
  let dt := t_dtype x in
  if is_float dt then tmap dt (fun v => round_to dt (v - inject_Z n)) x
  else match int_bits dt with
       | Some _ => tmap dt (fun v => inject_Z (wrap dt (Qfloor v - n))) x
       | None => bool_sub_int x n
       end.

(** [x * q] for a Python float [q]: a tensor that is not floating-point
    is cast to [float32] first; the product is rounded. *)
Definition tensor_mul_float (x : tensor Q) (q : Q) : tensor Q :=
  let dt := t_dtype x in
  if is_float dt then tmap dt (fun v => round_to dt (v * q)) x
  else tmap DFloat32 (fun v => round_to DFloat32 (round_to DFloat32 v * q)) x.

(** [o - n] for an integer literal [n]. *)
Definition py_sub_int (o : pyobj) (n : Z) : result pyobj :=
  match o with
  | PyInt z => Ok (PyInt (z - n))
  | PyFloat q => Ok (PyFloat (round_to DFloat64 (q - inject_Z n)))
  | PyIntTensor t =>
      match int_bits (t_dtype t) with
      | Some _ => Ok (PyIntTensor (tmap (t_dtype t) (fun v => wrap (t_dtype t) (v - n)) t))
      | None => Ok (PyTensor (tensor_sub_int (tmap (t_dtype t) inject_Z t) n))
      end
  | PyTensor t => Ok (PyTensor (tensor_sub_int t n))
  | _ => Raise (Exn TypeError "unsupported operand type(s) for -")
  end.

(** [o * q] for a float literal [q]. *)
Definition py_mul_float (o : pyobj) (q : Q) : result pyobj :=
  match o with
  | PyInt z => Ok (PyFloat (round_to DFloat64 (round_to DFloat64 (inject_Z z) * q)))
  | PyFloat x => Ok (PyFloat (round_to DFloat64 (x * q)))
  | PyIntTensor t => Ok (PyTensor (tensor_mul_float (tmap (t_dtype t) inject_Z t) q))
  | PyTensor t => Ok (PyTensor (tensor_mul_float t q))
  | _ => Raise (Exn TypeError "unsupported operand type(s) for *")
  end.

End Operators.

(* ================================================================= *)
(** ** [FusedQWenRMSNorm] *)

Module FusedQWenRMSNorm.
Record t := mk { eps : Q; weight : tensor Q }.

Definition forward `{Framework} (self : t) (x : tensor Q) : M trace (tensor Q) :=
  let* result := call (CallRmsNorm x (weight self) (eps self))
                      (fused_rms_norm x (weight self) (eps self)) in
  match result with
  | RmsTuple l =>
      match l with
      | r :: _ => ret r
      | [] => raise (Exn IndexError "tuple index out of range")
      end
  | RmsTensor r => ret r
  end.
End FusedQWenRMSNorm.

(** The outputs of [transformers.model_outputs]. *)
Inductive out_item :=
| OutTensor (t : tensor Q)
| OutTuple (l : list (tensor Q)).

Module BaseModelOutputWithPast.
Record t := mk {
  last_hidden_state : tensor Q;
  past_key_values : option (list (tensor Q));
  hidden_states : option (list (tensor Q));
  attentions : option (list (tensor Q))
}.
End BaseModelOutputWithPast.

Module CausalLMOutputWithPast.
Record t := mk {
  loss : option (tensor Q);
  logits : tensor Q;
  past_key_values : option (list (tensor Q));
  hidden_states : option (list (tensor Q));
  attentions : option (list (tensor Q))
}.
End CausalLMOutputWithPast.

(** What [QWenInferenceModel.forward] returns: a tuple, or the output
    record when [return_dict] holds. *)
Inductive model_output :=
| TupleOutput (l : list out_item)
| DictOutput (o : BaseModelOutputWithPast.t).

Inductive lm_output :=
| LmTupleOutput (l : list out_item)
| LmDictOutput (o : CausalLMOutputWithPast.t).

(** The entries of a list that are not [None]. *)
Definition not_none {A} (l : list (option A)) : list A :=
  flat_map (fun v => match v with Some x => [x] | None => [] end) l.

(** [ModelOutput.to_tuple]: the fields that are not [None], in order. *)
Definition to_tuple (o : BaseModelOutputWithPast.t) : list out_item :=
  not_none [Some (OutTensor (BaseModelOutputWithPast.last_hidden_state o));
            OutTuple <$> BaseModelOutputWithPast.past_key_values o;
            OutTuple <$> BaseModelOutputWithPast.hidden_states o;
            OutTuple <$> BaseModelOutputWithPast.attentions o].

(* ================================================================= *)
(** ** [QWenInferenceModel] *)

Module QWenInferenceModel.

Module FMT := FusedMultiTransformerBase.

(** The attributes of [self] that the methods below read or write;
    [wte] is the weight of the embedding layer. *)
Record t := mk {
  config : QWenConfig.t;
  hidden_size : Z;
  num_attention_heads : Z;
  num_layers : Z;
  wte : tensor Q;
  transformer_block : FusedMultiTransformerBase.t;
  ln_f : FusedQWenRMSNorm.t;
  head_dim : Z;
  head_dim_shape_tensor : tensor Z
}.

(** [__init__], given the parameters the framework's layers create. *)
Definition init (config : QWenConfig.t) (wte_weight : tensor Q)
    (block : FusedMultiTransformerBase.t) (ln_f_weight : tensor Q) : result t :=
  let hidden_size := QWenConfig.hidden_size config in
  let num_attention_heads := QWenConfig.num_attention_heads config in
  let+ head_dim := py_floordiv hidden_size num_attention_heads in
  let+ n := py_floordiv hidden_size num_attention_heads in
  Ok (mk config hidden_size num_attention_heads
         (QWenConfig.num_hidden_layers config)
         wte_weight block
         (FusedQWenRMSNorm.mk (QWenConfig.layer_norm_epsilon config) ln_f_weight)
         head_dim
         (mkTensor DInt8 [Z.to_nat n] (repeat 1%Z (Z.to_nat n)))).

(** *** Writing an attribute of [self] *)

Definition with_wte (v : tensor Q) (self : t) : t :=
  mk (config self) (hidden_size self) (num_attention_heads self)
     (num_layers self) v (transformer_block self) (ln_f self)
     (head_dim self) (head_dim_shape_tensor self).

Definition with_ln_f_weight (v : tensor Q) (self : t) : t :=
  mk (config self) (hidden_size self) (num_attention_heads self)
     (num_layers self) (wte self) (transformer_block self)
     (FusedQWenRMSNorm.mk (FusedQWenRMSNorm.eps (ln_f self)) v)
     (head_dim self) (head_dim_shape_tensor self).

Definition with_transformer_block (b : FusedMultiTransformerBase.t) (self : t) : t :=
  mk (config self) (hidden_size self) (num_attention_heads self)
     (num_layers self) (wte self) b (ln_f self)
     (head_dim self) (head_dim_shape_tensor self).

(** The seven parameter lists of the fused block. *)
Inductive slot :=
| LnScales | QkvWeights | QkvBiases | LinearWeights
| FfnLnScales | Ffn1Weights | Ffn2Weights.

Definition slot_get (s : slot) (b : FusedMultiTransformerBase.t) : list (tensor Q) :=
  match s with
  | LnScales => FMT.ln_scales b
  | QkvWeights => FMT.qkv_weights b
  | QkvBiases => FMT.qkv_biases b
  | LinearWeights => FMT.linear_weights b
  | FfnLnScales => FMT.ffn_ln_scales b
  | Ffn1Weights => FMT.ffn1_weights b
  | Ffn2Weights => FMT.ffn2_weights b
  end.

Definition slot_put (s : slot) (l : list (tensor Q))
    (b : FusedMultiTransformerBase.t) : FusedMultiTransformerBase.t :=
  match s with
  | LnScales =>
      FMT.mk l (FMT.qkv_weights b) (FMT.qkv_biases b)
        (FMT.linear_weights b) (FMT.ffn_ln_scales b) (FMT.ffn1_weights b) (FMT.ffn2_weights b)
  | QkvWeights =>
      FMT.mk (FMT.ln_scales b) l (FMT.qkv_biases b)
        (FMT.linear_weights b) (FMT.ffn_ln_scales b) (FMT.ffn1_weights b) (FMT.ffn2_weights b)
  | QkvBiases =>
      FMT.mk (FMT.ln_scales b) (FMT.qkv_weights b) l
        (FMT.linear_weights b) (FMT.ffn_ln_scales b) (FMT.ffn1_weights b) (FMT.ffn2_weights b)
  | LinearWeights =>
      FMT.mk (FMT.ln_scales b) (FMT.qkv_weights b) (FMT.qkv_biases b)
        l (FMT.ffn_ln_scales b) (FMT.ffn1_weights b) (FMT.ffn2_weights b)
  | FfnLnScales =>
      FMT.mk (FMT.ln_scales b) (FMT.qkv_weights b) (FMT.qkv_biases b)
        (FMT.linear_weights b) l (FMT.ffn1_weights b) (FMT.ffn2_weights b)
  | Ffn1Weights =>
      FMT.mk (FMT.ln_scales b) (FMT.qkv_weights b) (FMT.qkv_biases b)
        (FMT.linear_weights b) (FMT.ffn_ln_scales b) l (FMT.ffn2_weights b)
  | Ffn2Weights =>
      FMT.mk (FMT.ln_scales b) (FMT.qkv_weights b) (FMT.qkv_biases b)
        (FMT.linear_weights b) (FMT.ffn_ln_scales b) (FMT.ffn1_weights b) l
  end.

Section Methods.
Context `{Framework}.

(** [self.transformer_block.<slot>[idx].set_value(value)] *)
Definition assign (s : slot) (idx : nat) (value : tensor Q) : M t unit :=
  let* self := get in
  let slots := slot_get s (transformer_block self) in
  let* p := lift (list_getitem slots idx) in
  modify (with_transformer_block
            (slot_put s (<[idx := set_value p value]> slots)
                      (transformer_block self))).

(** ["qwen.h.{}.<suffix>".format(idx)] *)
Definition layer_key (idx : nat) (suffix : string) : string :=
  "qwen.h." +:+ format_nat idx +:+ suffix.

(** The body of the loop of [set_state_dict], for layer [idx]. *)
Definition load_layer (state_dict : gmap string (tensor Q)) (idx : nat) : M t unit :=
  let* self := get in
  let block := transformer_block self in
  let* w := lift (dict_getitem state_dict (layer_key idx ".ln_1.weight")) in
  let* p := lift (list_getitem (FMT.ln_scales block) idx) in
  let ln_scale := to_tensor w (Some (t_dtype p)) in
  let* w := lift (dict_getitem state_dict (layer_key idx ".attn.c_attn.weight")) in
  let qkv_weight := to_tensor w None in
  let* w := lift (dict_getitem state_dict (layer_key idx ".attn.c_attn.bias")) in
  let qkv_bias := to_tensor w None in
  let* w := lift (dict_getitem state_dict (layer_key idx ".attn.c_proj.weight")) in
  let linear_weight := to_tensor w None in
  let* w := lift (dict_getitem state_dict (layer_key idx ".ln_2.weight")) in
  let* p := lift (list_getitem (FMT.ffn_ln_scales block) idx) in
  let ffn_ln_scale := to_tensor w (Some (t_dtype p)) in
  let* up_weight := lift (dict_getitem state_dict (layer_key idx ".mlp.w1.weight")) in
  let* gate_weight := lift (dict_getitem state_dict (layer_key idx ".mlp.w2.weight")) in
  let* concated_ffn1_weight := lift (concat_last 0%Q up_weight gate_weight) in
  let ffn1_weight := to_tensor concated_ffn1_weight None in
  let* w := lift (dict_getitem state_dict (layer_key idx ".mlp.c_proj.weight")) in
  let ffn2_weight := to_tensor w None in
  let* _ := assign LnScales idx ln_scale in
  let* _ := assign QkvWeights idx qkv_weight in
  let* _ := assign QkvBiases idx qkv_bias in
  let* _ := assign LinearWeights idx linear_weight in
  let* _ := assign FfnLnScales idx ffn_ln_scale in
  let* _ := assign Ffn1Weights idx ffn1_weight in
  assign Ffn2Weights idx ffn2_weight.

Definition set_state_dict (state_dict : gmap string (tensor Q)) : M t unit :=
  let* self := get in
  let* head_size := lift (py_floordiv (hidden_size self) (num_attention_heads self)) in
  let* w := lift (dict_getitem state_dict "qwen.wte.weight") in
  let* _ := modify (with_wte (set_value (wte self) (to_tensor w None))) in
  let* w := lift (dict_getitem state_dict "qwen.ln_f.weight") in
  let ln_f_weight := FusedQWenRMSNorm.weight (ln_f self) in
  (* line 161: [dtype=] is handed to [set_value], not to [to_tensor] *)
  let* v := lift (py_set_value ln_f_weight (to_tensor w None)
                    (Some (t_dtype ln_f_weight))) in
  let* _ := modify (with_ln_f_weight v) in
  for_range (Z.to_nat (num_layers self)) (load_layer state_dict).

(** *** [remove_padding] *)

Definition remove_padding (input_ids seq_lens_this_time : option (tensor Z))
  : M trace (option (tensor Z) * option (tensor Z) * option (tensor Z)) :=
  match seq_lens_this_time with
  | None => raise (Exn ValueError "max(): argument 'x' must be Tensor, but got None")
  | Some seq_lens_this_time =>
      let* m := lift (tmax seq_lens_this_time) in
      let cum_offsets_now := cumsum (rsub_scalar m seq_lens_this_time) in
      let token_num := tsum seq_lens_this_time in
      let* '(ids_remove_padding, cum_offsets, padding_offset) :=
         call (CallGetPaddingOffset input_ids cum_offsets_now token_num seq_lens_this_time)
              (get_padding_offset input_ids cum_offsets_now token_num seq_lens_this_time) in
      ret (Some ids_remove_padding, Some padding_offset, Some cum_offsets)
  end.

(** *** [get_masks] *)

Definition get_masks (batch_size seq_length past_length : nat)
    (padding_mask : option (tensor Q)) : result (tensor bool) :=
  (* casual mask *)
  let casual_mask := tril (ones_bool [batch_size; 1; seq_length; seq_length]) in
  let+ casual_mask :=
    if 0 <? past_length
    then paddle_concat_last false
           (ones_bool [batch_size; 1; seq_length; past_length]) casual_mask
    else Ok casual_mask in
  (* seq_mask *)
  let+ padding_mask :=
    match padding_mask with
    | None =>
        Ok (ones_bool [batch_size; 1; seq_length; seq_length + past_length])
    | Some padding_mask =>
        match length (t_shape padding_mask) with
        | 2 =>
            (* from Tokenizer *)
            let+ e := expand 0%Q (unsqueeze [1; 2] padding_mask)
                        [batch_size; 1; seq_length; seq_length + past_length] in
            Ok (astype_bool e)
        | 3 => Ok (astype_bool (unsqueeze [1] padding_mask))
        | 4 => Ok (astype_bool padding_mask)
        | _ =>
            (* left as it is: [&] takes it only if it is boolean already *)
            if dtype_eqb (t_dtype padding_mask) DBool
            then Ok (astype_bool padding_mask)
            else Raise (Exn ValueError "bitwise_and: the operands differ in dtype")
        end
    end in
  tand casual_mask padding_mask.

(** *** [forward] *)

(** Lines 251-254: exactly one of [input_ids] and [inputs_embeds]. *)
Definition presence_check (input_ids : option (tensor Z))
    (inputs_embeds : option (tensor Q)) : result unit :=
  match input_ids, inputs_embeds with
  | Some _, Some _ =>
      Raise (Exn ValueError "You cannot specify both input_ids and inputs_embeds at the same time")
  | None, None =>
      Raise (Exn ValueError "You have to specify either input_ids or inputs_embeds")
  | _, _ => Ok tt
  end.

(** [batch, seq_len, hidden_dim = shape] *)
Definition unpack3 (shape : list nat) : result (nat * nat * nat) :=
  match shape with
  | [a; b; c] => Ok (a, b, c)
  | _ :: _ :: _ :: _ :: _ =>
      Raise (Exn ValueError "too many values to unpack (expected 3)")
  | _ => Raise (Exn ValueError "not enough values to unpack (expected 3)")
  end.

Definition forward (self : t)
    (input_ids position_ids : option (tensor Z))
    (attention_mask inputs_embeds : option (tensor Q))
    (use_cache : option bool)
    (cache_kvs pre_caches : option (list (tensor Q)))
    (seq_len_encoder seq_len_decoder : option (tensor Z))
    (past_key_values : pyobj)
    (output_attentions output_hidden_states return_dict : option bool)
    (kwargs : gmap string pyobj) : M trace model_output :=
  (* kwargs["cache"] is used to distinguish between encoder and decoder phase. *)
  let past_key_values := kwargs_get kwargs "cache" in
  let is_decoder := negb (is_none past_key_values) in
  let* _ := lift (presence_check input_ids inputs_embeds) in
  let output_attentions :=
    default (QWenConfig.output_attentions (config self)) output_attentions in
  let output_hidden_states :=
    default (QWenConfig.output_hidden_states (config self)) output_hidden_states in
  let use_cache := default (QWenConfig.use_cache (config self)) use_cache in
  let return_dict := default (QWenConfig.use_return_dict (config self)) return_dict in
  let* '(input_shape, inputs_embeds) :=
    match input_ids, inputs_embeds with
    | Some ids, _ => ret (Some (t_shape ids), inputs_embeds)
    | None, Some e =>
        let input_shape := removelast (t_shape e) in
        let* '(batch, seq_len, hidden_dim) := lift (unpack3 (t_shape e)) in
        let* e := lift (reshape e [batch * seq_len; hidden_dim]) in
        ret (Some input_shape, Some e)
    | None, None => ret (None, None)
    end in
  let* '(past_length, past_key_values) :=
    if is_none past_key_values then
      let past_length := 0 in
      let* n := lift (py_len (PyInt (QWenConfig.num_hidden_layers (config self)))) in
      ret (past_length, none_tuple n)
    else
      let* layer := lift (py_getitem past_key_values 0) in
      let* key := lift (py_getitem layer 0) in
      let* shape := lift (py_shape key) in
      let* past_length := lift (shape_index shape 1) in
      ret (past_length, past_key_values) in
  let* '(ids_remove_padding, padding_offset, cum_offsets) :=
    if negb is_decoder
    then remove_padding input_ids seq_len_encoder
    else ret (input_ids, None, None) in
  let* inputs_embeds :=
    match inputs_embeds with
    | None =>
        match ids_remove_padding with
        | Some ids => call (CallEmbedding (wte self) ids) (embedding (wte self) ids)
        | None => raise (Exn TypeError "embedding: the input must be a Tensor, not NoneType")
        end
    | Some e => ret e
    end in
  let hidden_states := inputs_embeds in
  (* bool 4D mask *)
  let* input_shape :=
    match input_shape with
    | Some sh => ret sh
    | None => raise (Exn UnboundLocalError "local variable 'input_shape' referenced before assignment")
    end in
  let* batch_size := lift (shape_index input_shape 0) in
  let* seq_length := lift (shape_index input_shape 1) in
  let* attention_mask :=
    lift (get_masks batch_size seq_length past_length attention_mask) in
  let zero := zeros (t_shape attention_mask) (t_dtype hidden_states) in
  let* finfo_min := lift (finfo_min (t_dtype hidden_states)) in
  let neg_inf := full_like attention_mask finfo_min (t_dtype hidden_states) in
  (* dtype 4D mask *)
  let attention_mask := where_ attention_mask zero neg_inf in
  let* hidden_dim := lift (shape_last (t_shape hidden_states)) in
  let output_shape := input_shape ++ [hidden_dim] in
  (* decoder layers *)
  let presents : option (list (tensor Q)) := if use_cache then Some [] else None in
  let all_hidden_states : option (list (tensor Q)) :=
    if output_hidden_states then Some [] else None in
  let all_self_attentions : option (list (tensor Q)) :=
    if output_attentions then Some [] else None in
  let seq_lens := if is_decoder then seq_len_decoder else seq_len_encoder in
  let position_offset : Z :=
    if negb is_decoder && negb (bool_decide (pre_caches = None)) then 128%Z else 0%Z in
  let* new_rope :=
    call (CallRotary input_ids position_ids (head_dim_shape_tensor self) position_offset true)
         (fused_get_rotary_embedding input_ids position_ids
            (head_dim_shape_tensor self) position_offset true) in
  let attn_mask := cast attention_mask (t_dtype hidden_states) in
  let* time_step :=
    if is_decoder
    then let* n := lift (shape_last (t_shape attention_mask)) in
         ret (Some (Z.of_nat n - 1)%Z)
    else ret None in
  let args :=
    FMT.mkCall input_ids hidden_states cum_offsets padding_offset attn_mask
      cache_kvs pre_caches position_offset seq_lens new_rope 1%Z time_step in
  let* '(hidden_states, _) :=
    call (CallBlock args) (fused_multi_transformer (transformer_block self) args) in
  let* hidden_states := FusedQWenRMSNorm.forward (ln_f self) hidden_states in
  let* hidden_states := lift (reshape hidden_states output_shape) in
  let all_hidden_states :=
    if output_hidden_states
    then (fun l => l ++ [hidden_states]) <$> all_hidden_states
    else all_hidden_states in
  if negb return_dict then
    ret (TupleOutput
           (not_none [Some (OutTensor hidden_states); OutTuple <$> presents;
                      OutTuple <$> all_hidden_states;
                      OutTuple <$> all_self_attentions]))
  else
    ret (DictOutput
           (BaseModelOutputWithPast.mk hidden_states presents
              all_hidden_states all_self_attentions)).

End Methods.
End QWenInferenceModel.

(* ================================================================= *)
(** ** Dictionary comprehensions *)

Module PyDict.

(** [[f(x) for x in l]], stopping at the first exception. *)
Fixpoint collect {A B} (f : A -> result B) (l : list A) : result (list B) :=
  match l with
  | [] => Ok []
  | x :: l' =>
      let+ y := f x in
      let+ ys := collect f l' in
      Ok (y :: ys)
  end.

(** [{k: d[k] for k in d.keys()}] *)
Definition dict_copy {V} (d : gmap string V) : result (gmap string V) :=
  let+ items :=
    collect (fun k => let+ v := dict_getitem d k in Ok (k, v))
            (map fst (map_to_list d)) in
  Ok (list_to_map items).

End PyDict.
Import PyDict.

(* ================================================================= *)
(** ** [QWenForCausalLMInferenceModel] *)

Module QWenForCausalLMInferenceModel.

(** [lm_head] is the weight of the output projection. *)
Record t := mk {
  config : QWenConfig.t;
  qwen : QWenInferenceModel.t;
  lm_head : tensor Q
}.

(** [outputs[0]], which the head is then applied to. *)
Definition output_first (outputs : model_output) : result (tensor Q) :=
  match outputs with
  | TupleOutput (OutTensor x :: _) => Ok x
  | TupleOutput (OutTuple _ :: _) =>
      Raise (Exn TypeError "lm_head: the input must be a Tensor, not tuple")
  | TupleOutput [] => Raise (Exn IndexError "tuple index out of range")
  | DictOutput o => Ok (BaseModelOutputWithPast.last_hidden_state o)
  end.

(** [outputs[1:]] *)
Definition output_rest (outputs : model_output) : list out_item :=
  match outputs with
  | TupleOutput l => tail l
  | DictOutput o => tail (to_tuple o)
  end.

Section Methods.
Context `{Framework}.

Definition prepare_inputs_for_generation
    (input_ids cache_kvs seq_len_encoder seq_len_decoder
     tgt_ids tgt_pos tgt_generation_mask : pyobj)
    (kwargs : gmap string pyobj) : result (gmap string pyobj) :=
  let position_ids := kwargs_get kwargs "position_ids" in
  let attention_mask := kwargs_get kwargs "attention_mask" in
  let cache := kwargs_get kwargs "cache" in
  let pre_caches := kwargs_get kwargs "pre_caches" in
  let inputs_embeds := kwargs_get kwargs "inputs_embeds" in
  let+ '(input_ids, position_ids, attention_mask, inputs_embeds) :=
    if negb (is_none cache) then
      let input_ids := tgt_ids in
      let position_ids := tgt_pos in
      let+ d := py_sub_int tgt_generation_mask 1 in
      let+ attention_mask := py_mul_float d 10000 in
      (* make inputs_embeds be none in decoder phase. *)
      Ok (input_ids, position_ids, attention_mask, PyNone)
    else
      let+ d := py_sub_int attention_mask 1 in
      let+ attention_mask := py_mul_float d 10000 in
      Ok (input_ids, position_ids, attention_mask, inputs_embeds) in
  let model_inputs : gmap string pyobj :=
    <["input_ids" := input_ids]>
    (<["inputs_embeds" := inputs_embeds]>
    (<["position_ids" := position_ids]>
    (<["attention_mask" := attention_mask]>
    (<["cache_kvs" := cache_kvs]>
    (<["seq_len_encoder" := seq_len_encoder]>
    (<["seq_len_decoder" := seq_len_decoder]>
    (<["cache" := cache]>
    (<["pre_caches" := pre_caches]> ∅)))))))) in
  Ok model_inputs.

Definition forward (self : t)
    (input_ids position_ids : option (tensor Z))
    (attention_mask inputs_embeds : option (tensor Q))
    (use_cache : option bool)
    (cache : pyobj)
    (cache_kvs pre_caches : option (list (tensor Q)))
    (seq_len_encoder seq_len_decoder : option (tensor Z))
    (past_key_values : pyobj)
    (labels : option (tensor Z))
    (output_attentions output_hidden_states return_dict : option bool)
  : M trace lm_output :=
  let output_attentions :=
    default (QWenConfig.output_attentions (config self)) output_attentions in
  let output_hidden_states :=
    default (QWenConfig.output_hidden_states (config self)) output_hidden_states in
  let return_dict := default (QWenConfig.use_return_dict (config self)) return_dict in
  let* outputs :=
    QWenInferenceModel.forward (qwen self) input_ids position_ids attention_mask
      inputs_embeds use_cache cache_kvs pre_caches seq_len_encoder seq_len_decoder
      past_key_values (Some output_attentions) (Some output_hidden_states)
      (Some return_dict) {["cache" := cache]} in
  let* hidden_states := lift (output_first outputs) in
  let tensor_parallel_output :=
    QWenConfig.tensor_parallel_output (config self)
    && negb (bool_decide (labels = None))
    && (1 <? QWenConfig.tensor_parallel_degree (config self))%Z in
  let* lm_logits :=
    call (CallLmHead hidden_states tensor_parallel_output)
         (lm_head_forward (lm_head self) hidden_states tensor_parallel_output) in
  let* loss :=
    match labels with
    | Some labels =>
        let* l := call (CallCriterion lm_logits labels)
                       (criterion_forward lm_logits labels) in
        ret (Some l)
    | None => ret None
    end in
  if negb return_dict then
    let output := OutTensor lm_logits :: output_rest outputs in
    ret (LmTupleOutput
           (match loss with
            | Some l => OutTensor l :: output
            | None => output
            end))
  else
    match outputs with
    | DictOutput o =>
        ret (LmDictOutput
               (CausalLMOutputWithPast.mk loss lm_logits
                  (BaseModelOutputWithPast.past_key_values o)
                  (BaseModelOutputWithPast.hidden_states o)
                  (BaseModelOutputWithPast.attentions o)))
    | TupleOutput _ =>
        raise (Exn AttributeError "'tuple' object has no attribute 'past_key_values'")
    end.

(** [get_cache_kvs_shape], a class method: one shape per layer. *)
Definition get_cache_kvs_shape (config : QWenConfig.t)
    (max_batch_size max_length : option Z) : result (list (list (option Z))) :=
  let max_length :=
    match max_length with
    | None => QWenConfig.max_position_embeddings config
    | Some l => l
    end in
  let body (_ : nat) : M (list (list (option Z))) unit :=
    let* heads :=
      lift (py_floordiv (QWenConfig.num_attention_heads config)
              (Z.max (QWenConfig.tensor_parallel_degree config) 1)) in
    let* head_dim :=
      lift (py_floordiv (QWenConfig.hidden_size config)
              (QWenConfig.num_attention_heads config)) in
    modify (fun cache_kvs =>
              cache_kvs ++ [[Some 2%Z; max_batch_size; Some heads;
                             Some max_length; Some head_dim]]) in
  match for_range (Z.to_nat (QWenConfig.num_hidden_layers config)) body [] with
  | (Ok _, cache_kvs) => Ok cache_kvs
  | (Raise e, _) => Raise e
  end.

Definition with_lm_head (v : tensor Q) (self : t) : t :=
  mk (config self) (qwen self) v.

Definition with_qwen (q : QWenInferenceModel.t) (self : t) : t :=
  mk (config self) q (lm_head self).

(** A method of [self.qwen], run on that attribute. *)
Definition on_qwen {A} (c : M QWenInferenceModel.t A) : M t A :=
  fun self => let (r, q) := c (qwen self) in (r, with_qwen q self).

Definition set_state_dict (state_dict : gmap string (tensor Q)) : M t unit :=
  let* _ :=
    if bool_decide (is_Some (state_dict !! "lm_head.weight")) then
      let* w := lift (dict_getitem state_dict "lm_head.weight") in
      modify (fun self => with_lm_head (set_value (lm_head self) w) self)
    else ret tt in
  let* copy := lift (dict_copy state_dict) in
  on_qwen (QWenInferenceModel.set_state_dict copy).

End Methods.
End QWenForCausalLMInferenceModel.


(* ================================================================= *)
(** ** Notions the statements below are phrased with *)

(** The names a layer needs in the state dictionary. *)
Definition layer_suffixes : list string :=
  [".ln_1.weight"; ".attn.c_attn.weight"; ".attn.c_attn.bias";
   ".attn.c_proj.weight"; ".ln_2.weight"; ".mlp.w1.weight"; ".mlp.w2.weight";
   ".mlp.c_proj.weight"].

(** A state dictionary that has every name of the first [n] layers, the
    embedding table and the final norm, with [w1] and [w2] of one shape
    up to the last axis. *)
Definition complete (state_dict : gmap string (tensor Q)) (n : nat) : Prop :=
  is_Some (state_dict !! "qwen.wte.weight") /\
  is_Some (state_dict !! "qwen.ln_f.weight") /\
  forall idx, idx < n ->
    (forall suffix, In suffix layer_suffixes ->
       is_Some (state_dict !! QWenInferenceModel.layer_key idx suffix)) /\
    (forall w1 w2,
       state_dict !! QWenInferenceModel.layer_key idx ".mlp.w1.weight" = Some w1 ->
       state_dict !! QWenInferenceModel.layer_key idx ".mlp.w2.weight" = Some w2 ->
       exists c, concat_last 0%Q w1 w2 = Ok c).

(** What [__init__] leaves behind, for a model of [n] layers: the layer
    count, a non-zero head count, and [n] parameters in every slot list
    of the fused block. *)
Definition constructed (self : QWenInferenceModel.t) (n : nat) : Prop :=
  QWenInferenceModel.num_layers self = Z.of_nat n /\
  QWenInferenceModel.num_attention_heads self <> 0%Z /\
  forall s,
    length (QWenInferenceModel.slot_get s (QWenInferenceModel.transformer_block self)) = n.

(** The two exceptions of the argument check of [forward]. *)
Definition is_check_error (e : exn) : bool :=
  match exn_kind_of e with
  | ValueError =>
      String.eqb (exn_msg e) "You cannot specify both input_ids and inputs_embeds at the same time"
      || String.eqb (exn_msg e) "You have to specify either input_ids or inputs_embeds"
  | _ => false
  end.

(** The position offsets handed to the rotary-embedding operator, in
    the order of the calls. *)
Definition rotary_offsets (evs : list event) : list Z :=
  flat_map (fun e => match e with
                     | CallRotary _ _ _ position_offset _ => [position_offset]
                     | _ => []
                     end) evs.

(** The [attn_mask] of a call of the fused block is the boolean mask
    [get_masks] built from [attention_mask], with [0] where it is [True]
    and the least finite value of the hidden states' dtype elsewhere. *)
Definition masked `{Framework} (attention_mask : option (tensor Q))
    (c : FusedMultiTransformerBase.call_args) : Prop :=
  exists (m : tensor bool) (fmin : Q),
    (exists b s p, QWenInferenceModel.get_masks b s p attention_mask = Ok m) /\
    finfo_min (t_dtype (FusedMultiTransformerBase.src c)) = Ok fmin /\
    t_shape (FusedMultiTransformerBase.attn_mask c) = t_shape m /\
    (forall idx, in_range (t_shape m) idx ->
       tget 0%Q (FusedMultiTransformerBase.attn_mask c) idx
       = if tget false m idx then 0%Q else fmin) /\
    Forall (fun v => v = 0%Q \/ v = fmin)
           (t_data (FusedMultiTransformerBase.attn_mask c)).

(** The framework rounds to nearest: a real number that is a value of
    the dtype, given in lowest terms, is stored as it is. *)
Definition exact_rounding `{Framework} : Prop :=
  forall dt q, Qred q = q -> representable dt q = true -> round_to dt q = q.

(** A tensor handed over as a Python object, with its entries read as
    rationals. *)
Definition as_numeric (o : pyobj) : option (tensor Q) :=
  match o with
  | PyTensor t => Some t
  | PyIntTensor t => Some (tmap (t_dtype t) inject_Z t)
  | _ => None
  end.

(** The dtypes of a mask for which [-1e4] is a value of the result:
    [float16], [float32], [float64], and the integer dtypes, whose
    product with a Python float is a [float32] tensor. *)
Definition mask_dtype (dt : dtype) : bool :=
  match dt with
  | DFloat16 | DFloat32 | DFloat64 | DInt8 | DInt32 | DInt64 => true
  | DBool | DBFloat16 => false
  end.

(** The dtype of [x * 1e4] for a tensor [x] of dtype [dt]. *)
Definition product_dtype (dt : dtype) : dtype :=
  if is_float dt then dt else DFloat32.

(** A mask of zeros and ones. *)
Definition zero_one (x : tensor Q) : Prop :=
  Forall (fun v => v = 0%Q \/ v = 1%Q) (t_data x).

(** Lengths that fit the integer dtype of their tensor: none is
    negative, and the number of sequences times a bound [M] on the
    lengths is below [2^(w-1)], [w] being the width of the dtype. *)
Definition lengths_fit (x : tensor Z) (M : Z) : Prop :=
  (forall v, In v (t_data x) -> (0 <= v <= M)%Z) /\
  exists w, int_bits (t_dtype x) = Some w /\
            (Z.of_nat (length (t_data x)) * M < 2 ^ (w - 1))%Z.

(** The operator or layer an event is a call of. *)
Inductive op :=
| OpGetPaddingOffset | OpEmbedding | OpRotary | OpBlock | OpRmsNorm
| OpLmHead | OpCriterion.

Definition op_of (e : event) : op :=
  match e with
  | CallGetPaddingOffset _ _ _ _ => OpGetPaddingOffset
  | CallEmbedding _ _ => OpEmbedding
  | CallRotary _ _ _ _ _ => OpRotary
  | CallBlock _ => OpBlock
  | CallRmsNorm _ _ _ => OpRmsNorm
  | CallLmHead _ _ => OpLmHead
  | CallCriterion _ _ => OpCriterion
  end.

(** The operators of one completed call of [forward], in the order of
    lines 284-327: the embedding layer is called only when no
    [inputs_embeds] is given. *)
Definition forward_ops (inputs_embeds : option (tensor Q)) : list op :=
  match inputs_embeds with
  | None => [OpEmbedding; OpRotary; OpBlock; OpRmsNorm]
  | Some _ => [OpRotary; OpBlock; OpRmsNorm]
  end.

(** [cache[0][0].shape[1]]: the length of the past, as [forward] reads
    it off the [cache] keyword. *)
Definition cache_past_length (cache : pyobj) : result nat :=
  let+ layer := py_getitem cache 0 in
  let+ key := py_getitem layer 0 in
  let+ shape := py_shape key in
  shape_index shape 1.

(** What loading weights leaves alone: the configuration, the sizes, the
    epsilon of the final norm, and the number of parameters in every
    slot list of the fused block. *)
Definition same_frame (self self' : QWenInferenceModel.t) : Prop :=
  QWenInferenceModel.config self' = QWenInferenceModel.config self /\
  QWenInferenceModel.hidden_size self' = QWenInferenceModel.hidden_size self /\
  QWenInferenceModel.num_attention_heads self'
  = QWenInferenceModel.num_attention_heads self /\
  QWenInferenceModel.num_layers self' = QWenInferenceModel.num_layers self /\
  QWenInferenceModel.head_dim self' = QWenInferenceModel.head_dim self /\
  QWenInferenceModel.head_dim_shape_tensor self'
  = QWenInferenceModel.head_dim_shape_tensor self /\
  FusedQWenRMSNorm.eps (QWenInferenceModel.ln_f self')
  = FusedQWenRMSNorm.eps (QWenInferenceModel.ln_f self) /\
  forall s,
    length (QWenInferenceModel.slot_get s (QWenInferenceModel.transformer_block self'))
    = length (QWenInferenceModel.slot_get s (QWenInferenceModel.transformer_block self)).

(* ================================================================= *)
(** ** A small instance, to run the definitions on *)

Module Example.

(** Operators that keep shapes in step with one another and are
    otherwise as simple as possible. *)
Definition toy : Framework := {|
  to_tensor w dt :=
    match dt with
    | Some d => mkTensor d (t_shape w) (t_data w)
    | None => w
    end;
  set_value p v := v;
  round_to dt q := q;
  bool_sub_int x n := tmap DBool (fun _ => 1%Q) x;
  cast_to dt x := mkTensor dt (t_shape x) (t_data x);
  embedding w ids := tinit DFloat32 (t_shape ids ++ [2]) (fun _ => 1%Q);
  get_padding_offset ids cum_offsets_now token_num seq_lens :=
    (default seq_lens ids, cum_offsets_now, seq_lens);
  fused_get_rotary_embedding ids pos head_dim offset neox :=
    mkTensor DFloat32 [1] [inject_Z offset];
  fused_multi_transformer b c := (FusedMultiTransformerBase.src c, []);
  fused_rms_norm x w eps := RmsTensor x;
  lm_head_forward w hs tpo := hs;
  criterion_forward logits labels := mkTensor DFloat32 [] [0%Q]
|}.

Definition vec (l : list Q) : tensor Q := mkTensor DFloat32 [length l] l.

Definition config : QWenConfig.t :=
  QWenConfig.mk 8 4 2 8 1 (1 # 1000000) 16 0 false false true false false 1.

Definition block : FusedMultiTransformerBase.t :=
  FusedMultiTransformerBase.mk [vec [1; 1]%Q] [vec [0]%Q] [vec [0]%Q] [vec [0]%Q]
    [vec [1; 1]%Q] [vec [0]%Q] [vec [0]%Q].

Definition model : QWenInferenceModel.t :=
  QWenInferenceModel.mk config 4 2 1 (vec [0]%Q) block
    (FusedQWenRMSNorm.mk (1 # 1000000) (vec [1; 1]%Q)) 2
    (mkTensor DInt8 [2] [1%Z; 1%Z]).

Definition lm : QWenForCausalLMInferenceModel.t :=
  QWenForCausalLMInferenceModel.mk config model (vec [0]%Q).

(** One request of two tokens, two tokens already in the cache. *)
Definition ids : tensor Z := mkTensor DInt64 [1; 2] [7%Z; 8%Z].

Definition cache : pyobj :=
  PyTuple [PyTuple [PyTensor (mkTensor DFloat32 [1; 2] [0%Q; 0%Q])]].

(** The decoder-phase call [forward(ids, cache=cache)] and its outcome. *)
Definition decoder_call : M trace model_output :=
  @QWenInferenceModel.forward toy model (Some ids) None None None None None None
     None None PyNone None None None {["cache" := cache]}.

Definition decoder_output : model_output :=
  Eval vm_compute in
    match fst (decoder_call []) with
    | Ok out => out
    | Raise _ => TupleOutput []
    end.

Definition decoder_trace : trace := Eval vm_compute in snd (decoder_call []).

(** The encoder-phase call [forward(ids, pre_caches=[...])]: no [cache]. *)
Definition encoder_call : M trace model_output :=
  @QWenInferenceModel.forward toy model (Some ids) None None None None None
     (Some [vec [0]%Q]) None None PyNone None None None ∅.

(** The same call through the language model, with labels. *)
Definition lm_call : M trace lm_output :=
  @QWenForCausalLMInferenceModel.forward toy lm (Some ids) None None None None
     cache None None None None PyNone (Some ids) None None None.

Definition lm_output : lm_output :=
  Eval vm_compute in
    match fst (lm_call []) with
    | Ok out => out
    | Raise _ => LmTupleOutput []
    end.

Definition lm_trace : trace := Eval vm_compute in snd (lm_call []).

Definition state_dict : gmap string (tensor Q) :=
  list_to_map
    [("qwen.wte.weight", vec [5]%Q);
     ("qwen.ln_f.weight", vec [6]%Q);
     ("qwen.h.0.ln_1.weight", vec [10]%Q);
     ("qwen.h.0.attn.c_attn.weight", vec [11]%Q);
     ("qwen.h.0.attn.c_attn.bias", vec [12]%Q);
     ("qwen.h.0.attn.c_proj.weight", vec [13]%Q);
     ("qwen.h.0.ln_2.weight", vec [14]%Q);
     ("qwen.h.0.mlp.w1.weight", vec [15]%Q);
     ("qwen.h.0.mlp.w2.weight", vec [16]%Q);
     ("qwen.h.0.mlp.c_proj.weight", vec [17]%Q)].

End Example.

(* ================================================================= *)
(** ** Proofs *)

Module TensorFacts.

Lemma length_all_indices sh : length (all_indices sh) = numel sh.
Proof.
  induction sh as [|d sh IH]; simpl; [reflexivity|].
  generalize 0 at 1. induction d as [|d IHd]; intros s; simpl; [reflexivity|].
  rewrite length_app, length_map, IH, IHd. reflexivity.
Qed.

Lemma nth_flat_map_seq {B} (g : nat -> list B) n len :
  (forall a, length (g a) = n) ->
  forall s i r d, i < len -> r < n ->
    nth (i * n + r) (flat_map g (seq s len)) d = nth r (g (s + i)) d.
Proof.
  intros Hg. induction len as [|len IH]; intros s i r d Hi Hr; [lia|].
  simpl. destruct i as [|i].
  - rewrite app_nth1 by (rewrite Hg; lia).
    simpl. now rewrite Nat.add_0_r.
  - rewrite app_nth2 by (rewrite Hg; lia).
    rewrite Hg.
    replace (S i * n + r - n) with (i * n + r) by lia.
    rewrite IH by lia. f_equal. f_equal. lia.
Qed.

Lemma ravel_lt sh idx : in_range sh idx -> ravel sh idx < numel sh.
Proof.
  unfold in_range. intros H. induction H as [|i d idx sh Hi _ IH]; simpl; [lia|].
  nia.
Qed.

Lemma nth_all_indices sh idx d :
  in_range sh idx -> nth (ravel sh idx) (all_indices sh) d = idx.
Proof.
  unfold in_range. intros H.
  induction H as [|i n idx sh Hi Hr IH]; simpl; [reflexivity|].
  rewrite (nth_flat_map_seq _ (numel sh)).
  - rewrite (nth_indep _ d (i :: d)).
    + rewrite map_nth. simpl. now rewrite IH.
    + rewrite length_map, length_all_indices. now apply ravel_lt.
  - intros a. now rewrite length_map, length_all_indices.
  - exact Hi.
  - now apply ravel_lt.
Qed.

(** Reading an initialised tensor inside its shape gives the
    initialiser's value. *)
Lemma tget_tinit {A} (d : A) dt sh f idx :
  in_range sh idx -> tget d (tinit dt sh f) idx = f idx.
Proof.
  intros H. unfold tget, tinit. simpl.
  rewrite (nth_indep _ d (f idx)).
  - rewrite map_nth. now rewrite nth_all_indices.
  - rewrite length_map, length_all_indices. now apply ravel_lt.
Qed.

End TensorFacts.

(* ----------------------------------------------------------------- *)
(** *** Rules for postconditions *)

Module PostRules.

Lemma post_ret {A} (a : A) Q : Q (Ok a) [] -> post (ret a) Q.
Proof. intros HQ tr. exists []. simpl. rewrite app_nil_r. auto. Qed.

Lemma post_raise {A} (e : exn) (Q : result A -> list event -> Prop) :
  Q (Raise e) [] -> post (raise e) Q.
Proof. intros HQ tr. exists []. simpl. rewrite app_nil_r. auto. Qed.

Lemma post_lift {A} (r : result A) Q : Q r [] -> post (lift r) Q.
Proof. intros HQ tr. exists []. simpl. rewrite app_nil_r. auto. Qed.

Lemma post_call {A} (e : event) (r : A) Q : Q (Ok r) [e] -> post (call e r) Q.
Proof. intros HQ tr. exists [e]. simpl. auto. Qed.

Lemma post_bind {A B} (c : M trace A) (k : A -> M trace B) Q :
  post c (fun r evs =>
            match r with
            | Ok a => post (k a) (fun r' evs' => Q r' (evs ++ evs'))
            | Raise e => Q (Raise e) evs
            end) ->
  post (bind c k) Q.
Proof.
  intros Hc tr. destruct (Hc tr) as (evs & Htr & HQ).
  unfold bind. destruct (c tr) as [[a|e] tr1]; simpl in *; subst tr1.
  - destruct (HQ (tr ++ evs)) as (evs' & Htr' & HQ').
    exists (evs ++ evs'). rewrite Htr', app_assoc. auto.
  - exists evs. auto.
Qed.

Lemma post_weaken {A} (c : M trace A) (Q Q' : result A -> list event -> Prop) :
  post c Q -> (forall r evs, Q r evs -> Q' r evs) -> post c Q'.
Proof.
  intros Hc HQ tr. destruct (Hc tr) as (evs & Htr & H). exists evs. auto.
Qed.

(** What a run from a given trace says, read off a postcondition. *)
Lemma post_run {A} (c : M trace A) Q tr r tr' :
  post c Q -> c tr = (r, tr') -> exists evs, tr' = tr ++ evs /\ Q r evs.
Proof.
  intros Hc Hrun. destruct (Hc tr) as (evs & Htr & H).
  rewrite Hrun in *. simpl in *. eauto.
Qed.

End PostRules.
Import PostRules.

(** One step through a traced computation. *)
Ltac mstep :=
  lazymatch goal with
  | |- post (bind _ _) _ => apply post_bind
  | |- post (ret _) _ => apply post_ret
  | |- post (raise _) _ => apply post_raise
  | |- post (lift ?r) _ => apply post_lift; destruct r eqn:?
  | |- post (call _ _) _ => apply post_call
  | |- post (let (_, _) := ?x in _) _ => destruct x eqn:?
  | |- post (if ?b then _ else _) _ => destruct b eqn:?
  | |- post (match ?x with _ => _ end) _ => destruct x eqn:?
  end; cbv beta iota; cbn [app negb andb].

(* ----------------------------------------------------------------- *)
(** *** The additive attention mask *)

Module MaskFacts.
Import TensorFacts.

Lemma In_all_indices sh idx : In idx (all_indices sh) -> in_range sh idx.
Proof.
  unfold in_range. revert idx. induction sh as [|d sh IH]; simpl; intros idx Hin.
  - destruct Hin as [<-|[]]. constructor.
  - apply in_flat_map in Hin as (i & Hi & Hin).
    apply in_map_iff in Hin as (idx' & <- & Hin').
    apply in_seq in Hi. constructor; [lia | auto].
Qed.

Lemma dtype_eqb_refl dt : dtype_eqb dt dt = true.
Proof. now destruct dt. Qed.

Lemma where_two_valued (m : tensor bool) dt fmin :
  let x := where_ m (zeros (t_shape m) dt) (full_like m fmin dt) in
  t_dtype x = dt /\ t_shape x = t_shape m /\
  (forall idx, in_range (t_shape m) idx ->
     tget 0%Q x idx = if tget false m idx then 0%Q else fmin) /\
  Forall (fun v => v = 0%Q \/ v = fmin) (t_data x).
Proof.
  cbv zeta. unfold where_. repeat split.
  - intros idx Hidx. rewrite tget_tinit by exact Hidx.
    unfold zeros, full_like. now rewrite !tget_tinit by exact Hidx.
  - simpl. apply List.Forall_forall. intros v Hv.
    apply in_map_iff in Hv as (idx & <- & Hidx).
    apply In_all_indices in Hidx.
    unfold zeros, full_like. rewrite !tget_tinit by exact Hidx.
    destruct (tget false m idx); auto.
Qed.

Lemma masked_intro `{Framework} attention_mask b s p m dt fmin c :
  QWenInferenceModel.get_masks b s p attention_mask = Ok m ->
  finfo_min dt = Ok fmin ->
  t_dtype (FusedMultiTransformerBase.src c) = dt ->
  FusedMultiTransformerBase.attn_mask c
  = cast (where_ m (zeros (t_shape m) dt) (full_like m fmin dt)) dt ->
  masked attention_mask c.
Proof.
  intros Hm Hf Hdt Hc.
  destruct (where_two_valued m dt fmin) as (Hd & Hs & He & Ha).
  unfold cast in Hc. rewrite Hd, dtype_eqb_refl in Hc.
  exists m, fmin. rewrite Hc, Hdt. eauto 10.
Qed.

End MaskFacts.

(* ----------------------------------------------------------------- *)
(** *** The exceptions of the partial operations

    None of them is one of the two errors of the argument check. *)

Module LateErrors.

Ltac late_cases :=
  intros; repeat case_match; simplify_eq; try reflexivity; eauto.

Lemma late_unpack3 sh e :
  QWenInferenceModel.unpack3 sh = Raise e -> is_check_error e = false.
Proof. unfold QWenInferenceModel.unpack3. late_cases. Qed.

Lemma late_reshape {A} (x : tensor A) sh e :
  reshape x sh = Raise e -> is_check_error e = false.
Proof. unfold reshape. late_cases. Qed.

Lemma late_py_len o e : py_len o = Raise e -> is_check_error e = false.
Proof. unfold py_len. late_cases. Qed.

Lemma late_tensor_item {A} (t : tensor A) i e :
  tensor_item t i = Raise e -> is_check_error e = false.
Proof. unfold tensor_item. late_cases. Qed.

Lemma late_py_getitem o i e : py_getitem o i = Raise e -> is_check_error e = false.
Proof.
  unfold py_getitem, rbind. intros; repeat case_match; simplify_eq;
    try reflexivity; eauto using @late_tensor_item.
Qed.

Lemma late_py_shape o e : py_shape o = Raise e -> is_check_error e = false.
Proof. unfold py_shape. late_cases. Qed.

Lemma late_shape_index sh i e : shape_index sh i = Raise e -> is_check_error e = false.
Proof. unfold shape_index. late_cases. Qed.

Lemma late_shape_last sh e : shape_last sh = Raise e -> is_check_error e = false.
Proof. unfold shape_last. late_cases. Qed.

Lemma late_finfo_min dt e : finfo_min dt = Raise e -> is_check_error e = false.
Proof. unfold finfo_min. late_cases. Qed.

Lemma late_tmax x e : tmax x = Raise e -> is_check_error e = false.
Proof. unfold tmax. late_cases. Qed.

Lemma late_expand {A} (d : A) x target e :
  expand d x target = Raise e -> is_check_error e = false.
Proof. unfold expand. late_cases. Qed.

Lemma late_concat_last {A} (d : A) a b e :
  concat_last d a b = Raise e -> is_check_error e = false.
Proof. unfold concat_last. late_cases. Qed.

Lemma late_paddle_concat_last {A} (d : A) a b e :
  paddle_concat_last d a b = Raise e -> is_check_error e = false.
Proof.
  unfold paddle_concat_last. intros; case_match; simplify_eq;
    [reflexivity | eauto using @late_concat_last].
Qed.

Lemma late_tand a b e : tand a b = Raise e -> is_check_error e = false.
Proof. unfold tand. late_cases. Qed.

Lemma late_get_masks b s p pm e :
  QWenInferenceModel.get_masks b s p pm = Raise e -> is_check_error e = false.
Proof.
  unfold QWenInferenceModel.get_masks, rbind.
  intros; repeat case_match; simplify_eq; try reflexivity;
    eauto using late_tand, @late_expand, @late_paddle_concat_last.
Qed.

End LateErrors.

Create HintDb late.
#[local] Hint Resolve LateErrors.late_unpack3 LateErrors.late_reshape
  LateErrors.late_py_len LateErrors.late_py_getitem LateErrors.late_py_shape
  LateErrors.late_shape_index LateErrors.late_shape_last
  LateErrors.late_finfo_min LateErrors.late_tmax LateErrors.late_get_masks : late.

(* ----------------------------------------------------------------- *)
(** *** [QWenInferenceModel.forward] *)

Section ForwardFacts.
Context `{Framework}.
Import QWenInferenceModel MaskFacts.

Variables (self : QWenInferenceModel.t)
  (input_ids position_ids : option (tensor Z))
  (attention_mask inputs_embeds : option (tensor Q))
  (use_cache : option bool)
  (cache_kvs pre_caches : option (list (tensor Q)))
  (seq_len_encoder seq_len_decoder : option (tensor Z))
  (past_key_values : pyobj)
  (output_attentions output_hidden_states return_dict : option bool)
  (kwargs : gmap string pyobj).

Local Abbreviation run_forward :=
  (forward self input_ids position_ids attention_mask inputs_embeds use_cache
     cache_kvs pre_caches seq_len_encoder seq_len_decoder past_key_values
     output_attentions output_hidden_states return_dict kwargs).

Ltac forward_steps :=
  unfold forward, remove_padding, FusedQWenRMSNorm.forward; cbv zeta;
  repeat mstep.

(** When the check of lines 251-254 fails, that is all [forward] does. *)
Lemma forward_check_fails e tr :
  presence_check input_ids inputs_embeds = Raise e ->
  run_forward tr = (Raise e, tr).
Proof.
  intros He. unfold forward, bind, lift. now rewrite He.
Qed.

(** Past the check, [forward] raises neither of the check's errors. *)
Lemma forward_no_late_check_error :
  presence_check input_ids inputs_embeds = Ok tt ->
  post run_forward (fun r _ => forall e, r = Raise e -> is_check_error e = false).
Proof.
  intros Hc. unfold forward. rewrite Hc.
  unfold remove_padding, FusedQWenRMSNorm.forward. cbv zeta.
  repeat mstep.
  all: intros late Hlate; try discriminate.
  all: injection Hlate as <-; eauto with late.
Qed.

(** In the encoder phase nothing is called and the call ends in an
    exception; with [input_ids] given it is the [TypeError] of
    [len(self.config.num_hidden_layers)]. *)
Lemma forward_encoder_post :
  kwargs_get kwargs "cache" = PyNone ->
  post run_forward
       (fun r evs =>
          evs = [] /\
          exists e, r = Raise e /\
            (presence_check input_ids inputs_embeds = Ok tt ->
             input_ids <> None ->
             e = Exn TypeError "object of type 'int' has no len()")).
Proof.
  intros Hc. unfold forward. rewrite Hc. cbv zeta. cbn [is_none negb].
  repeat mstep.
  all: try (simpl in *; discriminate).
  all: split; [reflexivity | eexists; split; [reflexivity | ]].
  all: intros; simpl in *; congruence.
Qed.

(** What a completed call returns. *)
Lemma forward_output_post :
  post run_forward
       (fun r evs => forall out, r = Ok out ->
          exists hs : tensor Q,
            let presents : option (list (tensor Q)) :=
              if default (QWenConfig.use_cache (config self)) use_cache
              then Some [] else None in
            let all_hidden_states :=
              if default (QWenConfig.output_hidden_states (config self)) output_hidden_states
              then Some [hs] else None in
            let all_self_attentions : option (list (tensor Q)) :=
              if default (QWenConfig.output_attentions (config self)) output_attentions
              then Some [] else None in
            out =
            if default (QWenConfig.use_return_dict (config self)) return_dict
            then DictOutput (BaseModelOutputWithPast.mk hs presents
                               all_hidden_states all_self_attentions)
            else TupleOutput
                   (not_none [Some (OutTensor hs); OutTuple <$> presents;
                              OutTuple <$> all_hidden_states;
                              OutTuple <$> all_self_attentions])).
Proof.
  forward_steps.
  all: intros out Hout; try discriminate.
  all: injection Hout as <-.
  all: eexists; cbv zeta.
  all: repeat match goal with
         | Hb : negb ?b = _ |- _ => destruct b; try discriminate; clear Hb
         end.
  all: destruct (default (QWenConfig.output_hidden_states (config self)) output_hidden_states);
    reflexivity.
Qed.

(** The offsets of the rotary operator and of the fused block. *)
Lemma forward_offsets_post :
  post run_forward
       (fun r evs =>
          (rotary_offsets evs = [] \/ rotary_offsets evs = [0%Z]) /\
          (forall c, In (CallBlock c) evs ->
             rotary_offsets evs = [FusedMultiTransformerBase.pre_caches_length c]) /\
          (forall out, r = Ok out ->
             rotary_offsets evs = [0%Z] /\
             exists c, In (CallBlock c) evs)).
Proof.
  destruct (is_none (kwargs_get kwargs "cache")) eqn:Hc.
  - eapply post_weaken; [apply forward_encoder_post; now destruct (kwargs_get kwargs "cache")|].
    intros r evs (-> & e & -> & _). simpl.
    repeat split; auto; try tauto; try discriminate.
  - unfold forward. rewrite Hc.
    unfold remove_padding, FusedQWenRMSNorm.forward. cbv zeta. cbn [negb andb].
    repeat mstep.
    all: simpl; repeat split; auto; try tauto; try discriminate.
    all: try (intros c Hin;
              repeat (destruct Hin as [Hin|Hin]; [try discriminate|]); try contradiction;
              now injection Hin as <-).
    all: eexists; eauto 6.
Qed.

(** The mask every call of the fused block receives. *)
Lemma forward_mask_post :
  post run_forward
       (fun _ evs => forall c, In (CallBlock c) evs -> masked attention_mask c).
Proof.
  forward_steps.
  all: intros c Hin; simpl in Hin.
  all: repeat (destruct Hin as [Hin|Hin]; [try discriminate|]); try contradiction.
  all: injection Hin as <-.
  all: eapply masked_intro; [eassumption | eassumption | reflexivity | reflexivity].
Qed.

(** Claim C2.  [forward] checks the presence of its inputs first: the
    check raises [ValueError] exactly when [input_ids] and
    [inputs_embeds] are both given or both absent; [forward] then ends
    with that exception and leaves the trace as it was, so no operator
    has run; with exactly one of the two given the check raises nothing;
    and no later step of [forward] raises one of the check's errors. *)
Theorem forward_checks_inputs_first :
  ((exists e, presence_check input_ids inputs_embeds = Raise e
              /\ exn_kind_of e = ValueError)
   <-> (input_ids <> None /\ inputs_embeds <> None)
       \/ (input_ids = None /\ inputs_embeds = None))
  /\ (forall e, presence_check input_ids inputs_embeds = Raise e ->
        forall tr, run_forward tr = (Raise e, tr))
  /\ ((input_ids = None <-> inputs_embeds <> None) ->
        presence_check input_ids inputs_embeds = Ok tt)
  /\ (forall tr e tr', run_forward tr = (Raise e, tr') ->
        is_check_error e = true ->
        presence_check input_ids inputs_embeds = Raise e /\ tr' = tr).
Proof.
  split; [split | split; [ | split]].
  - intros (e & He & _). unfold presence_check in He.
    destruct input_ids, inputs_embeds; try discriminate; [left | right]; split; congruence.
  - intros [[Hi He]|[-> ->]].
    + destruct input_ids, inputs_embeds; try congruence. simpl. eauto.
    + simpl. eauto.
  - intros e He tr. now apply forward_check_fails.
  - intros [Hl Hr]. unfold presence_check.
    destruct input_ids, inputs_embeds; try reflexivity.
    + specialize (Hr ltac:(discriminate)). discriminate.
    + exfalso. exact (Hl eq_refl eq_refl).
  - intros tr e tr' Hrun Herr.
    destruct (presence_check input_ids inputs_embeds) as [[]|e0] eqn:Hc.
    + destruct (post_run _ _ _ _ _ (forward_no_late_check_error Hc) Hrun)
        as (evs & _ & Hlate).
      rewrite (Hlate e eq_refl) in Herr. discriminate.
    + rewrite (forward_check_fails e0 tr Hc) in Hrun. split; congruence.
Qed.

(** Claim C1.  What the code does instead: every encoder-phase call
    (no [cache] keyword) whose arguments pass the presence check ends in
    an exception with nothing done; when [input_ids] is given it is the
    [TypeError] raised by [len(self.config.num_hidden_layers)]. *)
Theorem forward_encoder_phase_raises :
  kwargs_get kwargs "cache" = PyNone ->
  presence_check input_ids inputs_embeds = Ok tt ->
  forall tr, exists e,
    run_forward tr = (Raise e, tr) /\
    (input_ids <> None -> e = Exn TypeError "object of type 'int' has no len()").
Proof.
  intros Hc Hp tr.
  destruct (run_forward tr) as [r tr'] eqn:Hrun.
  destruct (post_run _ _ _ _ _ (forward_encoder_post Hc) Hrun)
    as (evs & -> & -> & e & -> & He).
  exists e. rewrite app_nil_r. auto.
Qed.

(** Claim C7.  What the code does instead: in the encoder phase
    [forward] ends before it reaches the rotary-embedding operator, so
    the operator is never called with offset 128 (nor with any other);
    the trace is left as it was. *)
Theorem forward_encoder_phase_calls_no_operator :
  kwargs_get kwargs "cache" = PyNone ->
  pre_caches <> None ->
  forall tr,
    snd (run_forward tr) = tr /\ rotary_offsets (snd (run_forward [])) = [].
Proof.
  intros Hc _ tr.
  pose proof (forward_encoder_post Hc) as Hpost.
  destruct (Hpost tr) as (evs & -> & -> & _).
  destruct (Hpost []) as (evs & -> & -> & _).
  now rewrite app_nil_r.
Qed.

(** Claim C8.  A completed call returns [presents] as the empty tuple
    when [use_cache] (after defaulting to the configuration) holds and
    as [None] otherwise: in the output record it is the
    [past_key_values] field, in the tuple it follows the hidden states
    or is left out.  No key or value is ever put into it. *)
Theorem forward_past_key_values tr out tr' :
  run_forward tr = (Ok out, tr') ->
  let use_cache := default (QWenConfig.use_cache (config self)) use_cache in
  let output_hidden_states :=
    default (QWenConfig.output_hidden_states (config self)) output_hidden_states in
  let output_attentions :=
    default (QWenConfig.output_attentions (config self)) output_attentions in
  match out with
  | DictOutput o =>
      BaseModelOutputWithPast.past_key_values o
      = if use_cache then Some [] else None
  | TupleOutput l =>
      exists hs,
        l = OutTensor hs
            :: (if use_cache then [OutTuple []] else [])
            ++ (if output_hidden_states then [OutTuple [hs]] else [])
            ++ (if output_attentions then [OutTuple []] else [])
  end.
Proof.
  intros Hrun.
  destruct (post_run _ _ _ _ _ forward_output_post Hrun) as (evs & _ & Hout).
  destruct (Hout out eq_refl) as (hs & ->). cbv zeta.
  destruct (default (QWenConfig.use_return_dict (config self)) return_dict).
  - reflexivity.
  - exists hs.
    destruct (default (QWenConfig.use_cache (config self)) use_cache),
      (default (QWenConfig.output_hidden_states (config self)) output_hidden_states),
      (default (QWenConfig.output_attentions (config self)) output_attentions);
      reflexivity.
Qed.

(** Claim C9.  Whatever [forward] hands to the fused block as
    [attn_mask] has the shape of the boolean mask of [get_masks] and is
    two-valued: [0] where that mask is [True], the least finite value of
    the hidden states' dtype where it is [False]. *)
Theorem forward_attn_mask_two_valued tr r tr' :
  run_forward tr = (r, tr') ->
  exists evs,
    tr' = tr ++ evs /\
    forall c, In (CallBlock c) evs -> masked attention_mask c.
Proof.
  intros Hrun. exact (post_run _ _ _ _ _ forward_mask_post Hrun).
Qed.

(** The offsets as the code has them.  In every call the rotary
    operator is called at most once and only with offset 0; a call of
    the fused block gets the offset of that rotary call as
    [pre_caches_length]; a completed call has made both calls. *)
Theorem forward_offsets tr r tr' :
  run_forward tr = (r, tr') ->
  exists evs,
    tr' = tr ++ evs /\
    (rotary_offsets evs = [] \/ rotary_offsets evs = [0%Z]) /\
    (forall c, In (CallBlock c) evs ->
       rotary_offsets evs = [FusedMultiTransformerBase.pre_caches_length c]) /\
    (forall out, r = Ok out ->
       rotary_offsets evs = [0%Z] /\ exists c, In (CallBlock c) evs).
Proof.
  intros Hrun. exact (post_run _ _ _ _ _ forward_offsets_post Hrun).
Qed.

End ForwardFacts.

(** The claims above at the calls of [Example]. *)

Lemma forward_checks_inputs_first_witness :
  QWenInferenceModel.forward (H := Example.toy) Example.model (Some Example.ids) None
    None (Some (Example.vec [0]%Q)) None None None None None PyNone None None None
    {["cache" := Example.cache]} []
  = (Raise (Exn ValueError
       "You cannot specify both input_ids and inputs_embeds at the same time"), []).
Proof.
  apply (proj1 (proj2 (forward_checks_inputs_first (H := Example.toy) Example.model
                         (Some Example.ids) None None (Some (Example.vec [0]%Q)) None
                         None None None None PyNone None None None
                         {["cache" := Example.cache]}))).
  reflexivity.
Defined.

Lemma forward_offsets_witness :
  Example.decoder_call [] = (Ok Example.decoder_output, Example.decoder_trace) /\
  exists evs,
    Example.decoder_trace = [] ++ evs /\
    rotary_offsets evs = [0%Z] /\ exists c, In (CallBlock c) evs.
Proof.
  split; [reflexivity|].
  pose proof (forward_offsets (H := Example.toy) Example.model (Some Example.ids)
                None None None None None None None None PyNone None None None
                {["cache" := Example.cache]} [] (Ok Example.decoder_output)
                Example.decoder_trace) as Hw.
  destruct Hw as (evs & Htr & _ & _ & Hok); [reflexivity|].
  exists evs. split; [exact Htr|]. exact (Hok _ eq_refl).
Defined.

Lemma forward_encoder_phase_raises_witness :
  exists e,
    Example.encoder_call [] = (Raise e, []) /\
    (Some Example.ids <> None -> e = Exn TypeError "object of type 'int' has no len()").
Proof.
  apply (forward_encoder_phase_raises (H := Example.toy)); reflexivity.
Defined.

Lemma forward_encoder_phase_calls_no_operator_witness :
  snd (Example.encoder_call []) = [] /\
  rotary_offsets (snd (Example.encoder_call [])) = [].
Proof.
  apply (forward_encoder_phase_calls_no_operator (H := Example.toy));
    [reflexivity | discriminate].
Defined.

Lemma forward_past_key_values_witness :
  Example.decoder_call [] = (Ok Example.decoder_output, Example.decoder_trace) /\
  match Example.decoder_output with
  | DictOutput o => BaseModelOutputWithPast.past_key_values o = Some []
  | TupleOutput l => exists hs, l = [OutTensor hs; OutTuple []]
  end.
Proof.
  split; [reflexivity|].
  apply (forward_past_key_values (H := Example.toy) Example.model (Some Example.ids)
           None None None None None None None None PyNone None None None
           {["cache" := Example.cache]} [] Example.decoder_output Example.decoder_trace).
  reflexivity.
Defined.

Lemma forward_attn_mask_two_valued_witness :
  Example.decoder_call [] = (Ok Example.decoder_output, Example.decoder_trace) /\
  exists evs,
    Example.decoder_trace = [] ++ evs /\
    forall c, In (CallBlock c) evs -> masked (H := Example.toy) None c.
Proof.
  split; [reflexivity|].
  apply (forward_attn_mask_two_valued (H := Example.toy) Example.model (Some Example.ids)
           None None None None None None None None PyNone None None None
           {["cache" := Example.cache]} [] (Ok Example.decoder_output)).
  reflexivity.
Defined.

(** The mask of that call: the second query attends to all four keys,
    the first one not to the last. *)
Example decoder_call_mask :
  exists c,
    In (CallBlock c) Example.decoder_trace /\
    FusedMultiTransformerBase.attn_mask c
    = mkTensor DFloat32 [1; 1; 2; 4]
        [0; 0; 0; -340282346638528859811704183484516925440; 0; 0; 0; 0]%Q.
Proof.
  eexists. split; [right; right; left; reflexivity | reflexivity].
Qed.

(* ----------------------------------------------------------------- *)
(** *** [QWenInferenceModel.get_masks] *)

Module GetMasksFacts.
Import TensorFacts.

Lemma in_range4 a b c d i j k l :
  i < a -> j < b -> k < c -> l < d -> in_range [a; b; c; d] [i; j; k; l].
Proof. intros. repeat constructor; assumption. Qed.

Lemma bidx_in_range sh idx : in_range sh idx -> bidx sh idx = idx.
Proof.
  unfold bidx, in_range. intros Hr.
  rewrite (Forall2_length _ _ _ Hr), Nat.sub_diag.
  change (skipn 0 idx) with idx.
  induction Hr as [|i d idx sh Hi _ IH]; simpl; [reflexivity|].
  rewrite IH. destruct (Nat.eqb_spec d 1); [f_equal; lia | reflexivity].
Qed.

Lemma broadcast_aligned_same sh : broadcast_aligned sh sh = Some sh.
Proof.
  induction sh as [|d sh IH]; simpl; [reflexivity|].
  now rewrite IH, Nat.eqb_refl.
Qed.

Lemma broadcast_shapes_same sh : broadcast_shapes sh sh = Some sh.
Proof.
  unfold broadcast_shapes, pad_left.
  rewrite Nat.max_id, Nat.sub_diag. simpl. apply broadcast_aligned_same.
Qed.

(** [a & b] for operands of one shape is the entrywise conjunction. *)
Lemma tand_same_shape a b :
  t_shape a = t_shape b ->
  exists m, tand a b = Ok m /\ t_dtype m = DBool /\ t_shape m = t_shape a /\
    forall idx, in_range (t_shape a) idx ->
      tget false m idx = tget false a idx && tget false b idx.
Proof.
  intros Hs. unfold tand. rewrite <- Hs, broadcast_shapes_same.
  eexists. split; [reflexivity|]. repeat split.
  intros idx Hidx. rewrite tget_tinit by exact Hidx.
  now rewrite bidx_in_range.
Qed.

Lemma tget_ones sh idx : in_range sh idx -> tget false (ones_bool sh) idx = true.
Proof. intros Hidx. unfold ones_bool. now rewrite tget_tinit. Qed.

Lemma tget_tril_ones b s i q k :
  i < b -> q < s -> k < s ->
  tget false (tril (ones_bool [b; 1; s; s])) [i; 0; q; k] = (k <=? q).
Proof.
  intros Hi Hq Hk. unfold tril.
  assert (Hr : in_range [b; 1; s; s] [i; 0; q; k]) by (apply in_range4; lia).
  simpl t_shape. rewrite tget_tinit by exact Hr. cbv beta.
  rewrite tget_ones by exact Hr.
  unfold tril_keep. cbn [rev app]. now destruct (k <=? q).
Qed.

(** The causal part of the mask: every cached position, then the lower
    triangle over the current window. *)
Lemma causal_mask b s p :
  1 <= b -> 1 <= s ->
  exists c,
    (if 0 <? p
     then paddle_concat_last false (ones_bool [b; 1; s; p])
            (tril (ones_bool [b; 1; s; s]))
     else Ok (tril (ones_bool [b; 1; s; s]))) = Ok c /\
    t_shape c = [b; 1; s; s + p] /\
    forall i q k, i < b -> q < s -> k < s + p ->
      tget false c [i; 0; q; k] = (k <=? q + p).
Proof.
  intros Hb Hs.
  destruct (Nat.ltb_spec 0 p) as [Hp|Hp].
  - unfold paddle_concat_last.
    replace (numel (t_shape (ones_bool [b; 1; s; p])) =? 0) with false
      by (symmetry; apply Nat.eqb_neq; simpl; nia).
    cbn [andb]. unfold concat_last. simpl.
    destruct (decide ([s; 1; b] = [s; 1; b])) as [_|Hne]; [|congruence].
    eexists. split; [reflexivity|]. split.
    + simpl. do 4 f_equal. lia.
    + intros i q k Hi Hq Hk.
      rewrite tget_tinit by (apply in_range4; lia). simpl.
      destruct (Nat.ltb_spec k p) as [Hkp|Hkp].
      * rewrite tget_ones by (apply in_range4; lia).
        symmetry. apply Nat.leb_le. lia.
      * rewrite tget_tril_ones by lia.
        destruct (Nat.leb_spec (k - p) q), (Nat.leb_spec k (q + p)); try reflexivity; lia.
  - assert (p = 0) as -> by lia.
    eexists. split; [reflexivity|]. split.
    + simpl. now rewrite Nat.add_0_r.
    + intros i q k Hi Hq Hk. rewrite tget_tril_ones by lia.
      now rewrite Nat.add_0_r.
Qed.

(** Whatever the sizes, a causal part that is built has the full shape. *)
Lemma causal_mask_shape b s p c :
  (if 0 <? p
   then paddle_concat_last false (ones_bool [b; 1; s; p])
          (tril (ones_bool [b; 1; s; s]))
   else Ok (tril (ones_bool [b; 1; s; s]))) = Ok c ->
  t_shape c = [b; 1; s; s + p].
Proof.
  destruct (Nat.ltb_spec 0 p) as [Hp|Hp].
  - unfold paddle_concat_last.
    destruct ((numel (t_shape (ones_bool [b; 1; s; p])) =? 0)
              && (numel (t_shape (tril (ones_bool [b; 1; s; s]))) =? 0));
      [discriminate|].
    unfold concat_last. simpl.
    destruct (decide ([s; 1; b] = [s; 1; b])) as [_|Hne]; [|congruence].
    intros Hc. injection Hc as <-. simpl. do 4 f_equal. lia.
  - assert (p = 0) as -> by lia. intros Hc. injection Hc as <-.
    simpl. now rewrite Nat.add_0_r.
Qed.

Lemma tget_astype_bool x idx :
  tget false (astype_bool x) idx = negb (Qeq_bool (tget 0%Q x idx) 0).
Proof.
  unfold tget, astype_bool, tmap. simpl.
  change false with ((fun v => negb (Qeq_bool v 0)) 0%Q) at 1.
  apply map_nth.
Qed.

End GetMasksFacts.

Section GetMasks.
Import QWenInferenceModel GetMasksFacts TensorFacts.

(** Claim C3.  For a batch of [b >= 1] requests of [s >= 1] tokens with
    [p] cached positions, [get_masks] without a padding mask returns a
    boolean tensor of shape [[b; 1; s; s + p]] whose entry [(i, 0, q, k)]
    is [True] exactly when [k <= q + p]; with a two-dimensional padding
    mask that broadcasts to that shape, the entry is the conjunction of
    the causal entry and the truth value of the padding entry. *)
Theorem get_masks_causal_and_padding (b s p : nat) :
  1 <= b -> 1 <= s ->
  (exists m,
     get_masks b s p None = Ok m /\
     t_dtype m = DBool /\ t_shape m = [b; 1; s; s + p] /\
     forall i q k, i < b -> q < s -> k < s + p ->
       tget false m [i; 0; q; k] = (k <=? q + p))
  /\
  (forall (padding_mask : tensor Q) B L,
     t_shape padding_mask = [B; L] ->
     B = b \/ B = 1 -> L = s + p \/ L = 1 ->
     exists m,
       get_masks b s p (Some padding_mask) = Ok m /\
       t_dtype m = DBool /\ t_shape m = [b; 1; s; s + p] /\
       forall i q k, i < b -> q < s -> k < s + p ->
         tget false m [i; 0; q; k]
         = (k <=? q + p)
           && negb (Qeq_bool (tget 0%Q padding_mask
                                [if B =? 1 then 0 else i; if L =? 1 then 0 else k]) 0)).
Proof.
  intros Hb1 Hs1. split.
  - unfold get_masks.
    destruct (causal_mask b s p Hb1 Hs1) as (c & -> & Hsc & Hc). simpl.
    destruct (tand_same_shape c (ones_bool [b; 1; s; s + p])) as (m & -> & Hd & Hs & Hm);
      [exact Hsc|].
    exists m. rewrite Hs, Hsc. repeat split; auto.
    intros i q k Hi Hq Hk.
    rewrite Hm by (rewrite Hsc; apply in_range4; lia).
    rewrite Hc by lia. rewrite tget_ones by (apply in_range4; lia).
    apply andb_true_r.
  - intros pm B L Hpm HB HL. unfold get_masks.
    destruct (causal_mask b s p Hb1 Hs1) as (c & -> & Hsc & Hc). simpl.
    rewrite Hpm. simpl length. cbv iota.
    unfold expand, unsqueeze. rewrite Hpm. simpl.
    assert (Hok : (B =? b) || (B =? 1) = true).
    { destruct HB as [->| ->]; rewrite Nat.eqb_refl; [reflexivity | apply orb_true_r]. }
    assert (Hok' : (L =? s + p) || (L =? 1) = true).
    { destruct HL as [->| ->]; rewrite Nat.eqb_refl; [reflexivity | apply orb_true_r]. }
    unfold expand_ok. simpl. rewrite Hok, Hok', orb_true_r. simpl.
    match goal with |- context [tand c ?pad] =>
      destruct (tand_same_shape c pad) as (m & -> & Hd & Hs & Hm); [exact Hsc|]
    end.
    exists m. rewrite Hs, Hsc. repeat split; auto.
    intros i q k Hi Hq Hk.
    rewrite Hm by (rewrite Hsc; apply in_range4; lia).
    rewrite Hc by lia. f_equal.
    rewrite tget_astype_bool. rewrite tget_tinit by (apply in_range4; lia).
    unfold bidx. simpl. unfold tget. simpl. rewrite Hpm. simpl.
    do 3 f_equal. lia.
Qed.
End GetMasks.

Lemma get_masks_causal_and_padding_witness :
  1 <= 1 /\ 1 <= 2 /\
  (exists m,
     QWenInferenceModel.get_masks 1 2 1 None = Ok m /\
     t_dtype m = DBool /\ t_shape m = [1; 1; 2; 2 + 1] /\
     forall i q k, i < 1 -> q < 2 -> k < 2 + 1 ->
       tget false m [i; 0; q; k] = (k <=? q + 1)).
Proof.
  split; [lia | split; [lia |]].
  apply (get_masks_causal_and_padding 1 2 1); lia.
Defined.

(** The tokenizer's mask [[0; 1; 1]] on that batch: the first key is
    masked out for both queries. *)
Example get_masks_padding_example :
  QWenInferenceModel.get_masks 1 2 1 (Some (mkTensor DInt64 [1; 3] [0; 1; 1]%Q))
  = Ok (mkTensor DBool [1; 1; 2; 3] [false; true; false; false; true; true]).
Proof. reflexivity. Qed.

(* ----------------------------------------------------------------- *)
(** *** The decoder phase of [forward] *)

Section DecoderPhase.
Context `{Framework}.
Import QWenInferenceModel GetMasksFacts.

Lemma get_masks_none_ok b s p :
  1 <= b -> 1 <= s ->
  exists m, get_masks b s p None = Ok m /\ t_shape m = [b; 1; s; s + p].
Proof.
  intros Hb Hs1. unfold get_masks.
  destruct (causal_mask b s p Hb Hs1) as (c & -> & Hsc & _). simpl.
  destruct (tand_same_shape c (ones_bool [b; 1; s; s + p])) as (m & -> & _ & Hs & _);
    [exact Hsc|].
  exists m. split; [reflexivity | congruence].
Qed.

(** Whatever the sizes, a mask that is built has the full shape. *)
Lemma get_masks_none_shape b s p m :
  get_masks b s p None = Ok m -> t_shape m = [b; 1; s; s + p].
Proof.
  unfold get_masks, rbind. intros Hm.
  match type of Hm with
  | match ?x with _ => _ end = _ => destruct x as [c|e] eqn:Hc; [|discriminate]
  end.
  apply causal_mask_shape in Hc.
  destruct (tand_same_shape c (ones_bool [b; 1; s; s + p])) as (m' & Hm' & _ & Hs & _);
    [exact Hc|].
  simpl in Hm. rewrite Hm' in Hm. injection Hm as <-. congruence.
Qed.

(** The decoder phase, on arguments of the expected form, runs to the
    end: token ids of shape [[b; s]] with at least one request and one
    token, no embeddings, no padding mask, a [cache] whose first key is
    a tensor with a second axis, hidden states of a floating-point dtype
    and of shape [[b; s; h]] with [h >= 1], and a final norm that hands
    back as many elements as it was given. *)
Theorem forward_decoder_phase_completes (self : QWenInferenceModel.t)
    (ids : tensor Z) (position_ids : option (tensor Z))
    (use_cache : option bool) (cache_kvs pre_caches : option (list (tensor Q)))
    (seq_len_encoder seq_len_decoder : option (tensor Z)) (past_key_values : pyobj)
    (output_attentions output_hidden_states return_dict : option bool)
    (kwargs : gmap string pyobj)
    (b s h p d0 : nat) (rest : list nat) (key : tensor Q) (keys layers : list pyobj)
    (fmin : Q) :
  1 <= b -> 1 <= s -> 1 <= h ->
  t_shape ids = [b; s] ->
  kwargs_get kwargs "cache" = PyTuple (PyTuple (PyTensor key :: keys) :: layers) ->
  t_shape key = d0 :: p :: rest ->
  t_shape (embedding (wte self) ids) = [b; s; h] ->
  finfo_min (t_dtype (embedding (wte self) ids)) = Ok fmin ->
  (forall c,
     FusedMultiTransformerBase.src c = embedding (wte self) ids ->
     exists r,
     fused_rms_norm (fst (fused_multi_transformer (transformer_block self) c))
       (FusedQWenRMSNorm.weight (ln_f self)) (FusedQWenRMSNorm.eps (ln_f self))
     = RmsTensor r /\ length (t_data r) = b * s * h) ->
  forall tr, exists out tr',
    forward self (Some ids) position_ids None None use_cache cache_kvs pre_caches
      seq_len_encoder seq_len_decoder past_key_values output_attentions
      output_hidden_states return_dict kwargs tr = (Ok out, tr').
Proof.
  intros Hb1 Hs1 _ Hids Hcache Hkey Hemb Hfin Hnorm tr.
  destruct (get_masks_none_ok b s p Hb1 Hs1) as (m & Hm & Hsm).
  match goal with |- exists out tr', ?c tr = _ =>
    assert (Hpost : post c (fun r _ => exists out, r = Ok out))
  end.
  { unfold forward, FusedQWenRMSNorm.forward. rewrite Hcache, Hids. cbv zeta.
    repeat mstep.
    all: try solve [eexists; reflexivity].
    all: exfalso.
    all: repeat (progress (cbv [py_getitem nth_error py_shape shape_index shape_last
                                 rev app presence_check] in *;
                           simplify_eq; rewrite ?Hkey, ?Hemb in * )).
    all: try match goal with
           | E : fused_multi_transformer _ ?c = _ |- _ =>
               destruct (Hnorm c eq_refl) as (r & Hr & Hlen); rewrite E in Hr; simpl in Hr;
               simplify_eq
           end.
    all: try congruence.
    all: repeat match goal with
           | E1 : ?x = Ok ?u, E2 : ?x = Ok ?v |- _ =>
               assert (u = v) by congruence; subst u; clear E2
           | E1 : ?x = RmsTensor ?u, E2 : ?x = RmsTensor ?v |- _ =>
               assert (u = v) by congruence; subst u; clear E2
           end.
    all: try (rewrite Hsm in *; simpl in *; congruence).
    all: try match goal with
           | E : reshape _ _ = Raise _ |- _ =>
               unfold reshape, numel in E; simpl in E;
               match type of E with
               | context [?x =? ?y] => destruct (Nat.eqb_spec x y); [discriminate | nia]
               end
           end.
    all: unfold where_, tinit in *; cbn [t_shape] in *; rewrite Hsm in *;
      simpl in *; congruence. }
  destruct (Hpost tr) as (evs & Htr & out & Hout).
  exists out, (tr ++ evs). rewrite <- Htr, <- Hout. apply surjective_pairing.
Qed.
End DecoderPhase.

Lemma forward_decoder_phase_completes_witness :
  exists out tr', Example.decoder_call [] = (Ok out, tr').
Proof.
  apply (forward_decoder_phase_completes (H := Example.toy) Example.model Example.ids
           None None None None None None PyNone None None None
           {["cache" := Example.cache]} 1 2 2 2 1 []
           (mkTensor DFloat32 [1; 2] [0; 0]%Q) [] []
           (-340282346638528859811704183484516925440)%Q);
    try reflexivity; try lia.
  intros c Hc. simpl. rewrite Hc. eexists. split; reflexivity.
Defined.

(* ----------------------------------------------------------------- *)
(** *** [QWenInferenceModel.remove_padding] *)

Module ReductionFacts.

Lemma length_cumsum_from dt acc l : length (cumsum_from dt acc l) = length l.
Proof.
  revert acc. induction l as [|v l IH]; intros acc; simpl; [reflexivity|].
  now rewrite IH.
Qed.

(** A value within the range of an integer dtype is stored as it is. *)
Lemma wrap_small dt w z :
  int_bits dt = Some w ->
  (- 2 ^ (w - 1) <= z < 2 ^ (w - 1))%Z ->
  wrap dt z = z.
Proof.
  intros Hw Hz. unfold wrap. rewrite Hw.
  assert (Hpos : (0 < w)%Z) by (destruct dt; inversion Hw; lia).
  assert (H2 : (2 ^ w = 2 * 2 ^ (w - 1))%Z).
  { replace w with (Z.succ (w - 1)) at 1 by lia. apply Z.pow_succ_r. lia. }
  rewrite Z.mod_small by lia. lia.
Qed.

(** The dtype of a sum is at least as wide as the dtype summed. *)
Lemma wrap_sum_small dt w z :
  int_bits dt = Some w ->
  (- 2 ^ (w - 1) <= z < 2 ^ (w - 1))%Z ->
  wrap (sum_dtype dt) z = z.
Proof.
  intros Hw Hz.
  destruct dt; inversion Hw; subst; simpl sum_dtype;
    (eapply wrap_small; [reflexivity | simpl in *; lia]).
Qed.

Lemma zsum_nonneg l : Forall (fun v => (0 <= v)%Z) l -> (0 <= zsum l)%Z.
Proof.
  induction 1 as [|v l Hv _ IH]; unfold zsum in *; simpl; lia.
Qed.

(** Running sums of entries that are not negative and whose total stays
    in range never wrap: the [i]-th one is the sum of the first [i + 1]
    entries. *)
Lemma nth_cumsum_from dt w l : forall acc i,
  int_bits dt = Some w ->
  Forall (fun v => (0 <= v)%Z) l ->
  (0 <= acc)%Z -> (acc + zsum l < 2 ^ (w - 1))%Z ->
  i < length l ->
  nth i (cumsum_from dt acc l) 0%Z = (acc + zsum (firstn (S i) l))%Z.
Proof.
  induction l as [|v l IH]; intros acc i Hw Hl Hacc Hsum Hi; simpl in Hi; [lia|].
  inversion Hl as [|? ? Hv Hl']; subst.
  pose proof (zsum_nonneg l Hl') as Hnn.
  assert (Htot : zsum (v :: l) = (v + zsum l)%Z) by reflexivity.
  assert (Hstep : wrap dt (acc + v) = (acc + v)%Z).
  { apply (wrap_small dt w); [exact Hw|].
    assert (0 < 2 ^ (w - 1))%Z by (apply Z.pow_pos_nonneg; destruct dt; inversion Hw; lia).
    lia. }
  change (cumsum_from dt acc (v :: l))
    with (wrap dt (acc + v) :: cumsum_from dt (wrap dt (acc + v)) l).
  rewrite Hstep.
  destruct i as [|i].
  - simpl. destruct l; unfold zsum; simpl; lia.
  - change (nth (S i) ((acc + v)%Z :: cumsum_from dt (acc + v) l) 0%Z)
      with (nth i (cumsum_from dt (acc + v) l) 0%Z).
    rewrite IH by (auto; lia).
    change (firstn (S (S i)) (v :: l)) with (v :: firstn (S i) l).
    unfold zsum. simpl. lia.
Qed.

Lemma fold_left_max_ge l : forall a, (a <= fold_left Z.max l a)%Z.
Proof.
  induction l as [|v l IH]; intros a; simpl; [lia|].
  specialize (IH (Z.max a v)). lia.
Qed.

Lemma fold_left_max_bound l : forall a v,
  In v l -> (v <= fold_left Z.max l a)%Z.
Proof.
  induction l as [|w l IH]; intros a v Hin; simpl in *; [contradiction|].
  destruct Hin as [->|Hin]; [|now apply IH].
  pose proof (fold_left_max_ge l (Z.max a v)). lia.
Qed.

Lemma fold_left_max_in l : forall a,
  fold_left Z.max l a = a \/ In (fold_left Z.max l a) l.
Proof.
  induction l as [|w l IH]; intros a; simpl; [now left|].
  destruct (IH (Z.max a w)) as [Heq|Hin]; [|now right; right].
  rewrite Heq. destruct (Z.max_spec a w) as [[_ ->]|[_ ->]]; auto.
Qed.

(** [tmax] of a non-empty tensor is its greatest entry. *)
Lemma tmax_spec x :
  t_data x <> [] ->
  exists m, tmax x = Ok m /\ In m (t_data x) /\
            forall v, In v (t_data x) -> (v <= m)%Z.
Proof.
  unfold tmax. destruct (t_data x) as [|v vs]; [congruence|]. intros _.
  eexists. split; [reflexivity|]. split.
  - destruct (fold_left_max_in vs v) as [->|Hin]; [now left | now right].
  - intros w [<-|Hin]; [apply fold_left_max_ge | now apply fold_left_max_bound].
Qed.

Lemma zsum_le_length l M :
  (forall v, In v l -> (0 <= v <= M)%Z) ->
  (0 <= zsum l <= Z.of_nat (length l) * M)%Z.
Proof.
  induction l as [|v l IH]; intros Hl; [unfold zsum; simpl; lia|].
  assert (Hv : (0 <= v <= M)%Z) by (apply Hl; now left).
  specialize (IH (fun u Hu => Hl u (or_intror Hu))).
  change (zsum (v :: l)) with (v + zsum l)%Z.
  change (length (v :: l)) with (S (length l)). rewrite Nat2Z.inj_succ. lia.
Qed.

(** What lengths that fit their dtype give: the gaps to the longest one
    are computed without wrap-around, none is negative, and their sum
    and the sum of the lengths stay in range. *)
Lemma gaps_fit x M m :
  lengths_fit x M ->
  In m (t_data x) ->
  (forall v, In v (t_data x) -> (v <= m)%Z) ->
  exists w,
    int_bits (t_dtype x) = Some w /\
    t_data (rsub_scalar m x) = map (fun v => (m - v)%Z) (t_data x) /\
    Forall (fun g => (0 <= g)%Z) (map (fun v => (m - v)%Z) (t_data x)) /\
    (zsum (map (fun v => (m - v)%Z) (t_data x)) < 2 ^ (w - 1))%Z /\
    tsum x = zsum (t_data x).
Proof.
  intros (Hbound & w & Hw & Hfit) Hin Hmax.
  assert (Hm : (0 <= m <= M)%Z) by (apply Hbound, Hin).
  assert (Hlen : (1 <= Z.of_nat (length (t_data x)))%Z)
    by (destruct (t_data x); [contradiction | simpl length; lia]).
  assert (Hgap : forall v, In v (t_data x) -> (0 <= m - v <= M)%Z).
  { intros v Hv. specialize (Hbound v Hv). specialize (Hmax v Hv). lia. }
  pose proof (zsum_le_length (map (fun v => (m - v)%Z) (t_data x)) M) as Hgs.
  rewrite length_map in Hgs.
  assert (Hgs' : (0 <= zsum (map (fun v => (m - v)%Z) (t_data x))
                  <= Z.of_nat (length (t_data x)) * M)%Z).
  { apply Hgs. intros g Hg. apply in_map_iff in Hg. destruct Hg as (v & <- & Hv).
    now apply Hgap. }
  pose proof (zsum_le_length (t_data x) M Hbound) as Hts.
  exists w. split; [exact Hw|]. split; [|split; [|split]].
  - unfold rsub_scalar, tmap. simpl. apply map_ext_in. intros v Hv.
    apply (wrap_small _ w); [exact Hw|]. specialize (Hgap v Hv). nia.
  - apply List.Forall_forall. intros g Hg. apply in_map_iff in Hg.
    destruct Hg as (v & <- & Hv). now apply Hgap.
  - lia.
  - unfold tsum. apply (wrap_sum_small _ w); [exact Hw|]. lia.
Qed.

End ReductionFacts.

Section RemovePadding.
Context `{Framework}.
Import QWenInferenceModel ReductionFacts.

End RemovePadding.


(** On lengths 2, 5, 3 the offsets are 3, 3, 5 and there are 10 tokens. *)
Example remove_padding_example :
  QWenInferenceModel.remove_padding (H := Example.toy) (Some Example.ids)
    (Some (mkTensor DInt32 [3] [2; 5; 3]%Z)) []
  = (Ok (Some Example.ids, Some (mkTensor DInt32 [3] [2; 5; 3]%Z),
         Some (mkTensor DInt32 [3] [3; 3; 5]%Z)),
     [CallGetPaddingOffset (Some Example.ids) (mkTensor DInt32 [3] [3; 3; 5]%Z) 10
        (mkTensor DInt32 [3] [2; 5; 3]%Z)]).
Proof. reflexivity. Qed.

(* ----------------------------------------------------------------- *)
(** *** [QWenForCausalLMInferenceModel] *)

(** Rounding a value of the dtype, innermost first. *)
Ltac round_exactly Hexact :=
  repeat match goal with
         | |- context [round_to ?dt ?q] =>
             lazymatch q with
             | context [round_to] => fail
             | _ => rewrite (Hexact dt q) by reflexivity
             end
         end.

Section ScaledMask.
Context `{Framework}.

(** [(mask - 1) * 1e4] on a mask of zeros and ones: nothing is rounded
    and nothing wraps around, so one becomes zero and zero becomes
    minus ten thousand, in the dtype of the product. *)
Lemma scale_zero_one (mask : pyobj) (m : tensor Q) :
  exact_rounding ->
  as_numeric mask = Some m ->
  mask_dtype (t_dtype m) = true ->
  zero_one m ->
  (let+ d := py_sub_int mask 1 in py_mul_float d 10000)
  = Ok (PyTensor (mkTensor (product_dtype (t_dtype m)) (t_shape m)
                    (map (fun v => (v - 1) * 10000)%Q (t_data m)))).
Proof.
  intros Hexact Hnum Hdt H01.
  assert (Hfloat : forall dt v,
             mask_dtype dt = true -> is_float dt = true -> v = 0%Q \/ v = 1%Q ->
             round_to dt (round_to dt (v - inject_Z 1) * 10000) = ((v - 1) * 10000)%Q).
  { intros dt v Hd Hf [-> | ->]; destruct dt; try discriminate;
      round_exactly Hexact; reflexivity. }
  assert (Hint : forall dt v,
             mask_dtype dt = true -> is_float dt = false -> v = 0%Q \/ v = 1%Q ->
             round_to DFloat32
               (round_to DFloat32 (inject_Z (wrap dt (Qfloor v - 1))) * 10000)
             = ((v - 1) * 10000)%Q).
  { intros dt v Hd Hf [-> | ->]; destruct dt; try discriminate;
      round_exactly Hexact; reflexivity. }
  assert (Hdata : forall (x : tensor Q), t_dtype x = t_dtype m -> t_data x = t_data m ->
             t_shape x = t_shape m ->
             py_mul_float (PyTensor (tensor_sub_int x 1)) 10000
             = Ok (PyTensor (mkTensor (product_dtype (t_dtype m)) (t_shape m)
                               (map (fun v => (v - 1) * 10000)%Q (t_data m))))).
  { intros x Hxd Hxv Hxs. unfold py_mul_float, tensor_mul_float, tensor_sub_int, product_dtype.
    rewrite Hxd. destruct (is_float (t_dtype m)) eqn:Hf.
    - unfold tmap. cbn [t_dtype t_shape t_data]. rewrite Hf, Hxs, Hxv, List.map_map.
      do 3 f_equal. apply map_ext_in. intros v Hv.
      apply Hfloat; auto. exact (proj1 (List.Forall_forall _ _) H01 v Hv).
    - destruct (int_bits (t_dtype m)) eqn:Hbits;
        [|destruct (t_dtype m); discriminate].
      unfold tmap. cbn [t_dtype t_shape t_data]. rewrite Hf, Hxs, Hxv, List.map_map.
      do 3 f_equal. apply map_ext_in. intros v Hv.
      apply Hint; auto. exact (proj1 (List.Forall_forall _ _) H01 v Hv). }
  destruct mask as [| | |t|t| |]; try discriminate; simpl in Hnum;
    injection Hnum as Hm.
  - (* an integer tensor *)
    unfold py_sub_int. destruct (int_bits (t_dtype t)) eqn:Hbits.
    + cbn [rbind]. unfold py_mul_float, tensor_mul_float, product_dtype.
      subst m. cbn [tmap t_dtype t_shape t_data] in *.
      assert (Hf : is_float (t_dtype t) = false)
        by (destruct (t_dtype t); try discriminate; reflexivity).
      rewrite Hf. unfold tmap. cbn [t_dtype t_shape t_data].
      rewrite !List.map_map. do 3 f_equal. apply map_ext_in. intros u Hu.
      assert (Hv : inject_Z u = 0%Q \/ inject_Z u = 1%Q).
      { apply (proj1 (List.Forall_forall _ _) H01). apply in_map_iff. eauto. }
      assert (Hz01 : u = 0%Z \/ u = 1%Z)
        by (destruct Hv as [Hv|Hv]; inversion Hv; auto).
      destruct Hz01 as [-> | ->]; destruct (t_dtype t); try discriminate;
        round_exactly Hexact; reflexivity.
    + cbn [rbind]. subst m. apply Hdata; reflexivity.
  - (* a tensor of rationals *)
    subst t. unfold py_sub_int. cbn [rbind]. apply Hdata; reflexivity.
Qed.

End ScaledMask.

Section CausalLM.
Context `{Framework}.
Import QWenForCausalLMInferenceModel.


(** Claim C5.  A completed call of the language-model [forward] has
    applied [lm_head] to the first output of the wrapped model, and the
    criterion to the logits and the labels exactly when labels were
    given; the loss is [None] otherwise.  Without [return_dict] the
    returned tuple starts with the loss when there are labels and with
    the logits when there are none. *)
Theorem lm_forward_logits_and_loss (self : QWenForCausalLMInferenceModel.t)
    (input_ids position_ids : option (tensor Z))
    (attention_mask inputs_embeds : option (tensor Q))
    (use_cache : option bool) (cache : pyobj)
    (cache_kvs pre_caches : option (list (tensor Q)))
    (seq_len_encoder seq_len_decoder : option (tensor Z))
    (past_key_values : pyobj) (labels : option (tensor Z))
    (output_attentions output_hidden_states return_dict : option bool)
    (tr : trace) (out : lm_output) (tr' : trace) :
  forward self input_ids position_ids attention_mask inputs_embeds use_cache cache
    cache_kvs pre_caches seq_len_encoder seq_len_decoder past_key_values labels
    output_attentions output_hidden_states return_dict tr = (Ok out, tr') ->
  let return_dict := default (QWenConfig.use_return_dict (config self)) return_dict in
  exists (outputs : model_output) (tr1 : trace) (hidden_states : tensor Q),
    (* the wrapped model's result and its hidden states *)
    QWenInferenceModel.forward (qwen self) input_ids position_ids attention_mask
      inputs_embeds use_cache cache_kvs pre_caches seq_len_encoder seq_len_decoder
      past_key_values
      (Some (default (QWenConfig.output_attentions (config self)) output_attentions))
      (Some (default (QWenConfig.output_hidden_states (config self)) output_hidden_states))
      (Some return_dict) {["cache" := cache]} tr = (Ok outputs, tr1) /\
    output_first outputs = Ok hidden_states /\
    (* the projection to the vocabulary *)
    let tensor_parallel_output :=
      QWenConfig.tensor_parallel_output (config self)
      && negb (bool_decide (labels = None))
      && (1 <? QWenConfig.tensor_parallel_degree (config self))%Z in
    let lm_logits :=
      lm_head_forward (lm_head self) hidden_states tensor_parallel_output in
    (* the loss: computed exactly when there are labels *)
    let loss := criterion_forward lm_logits <$> labels in
    tr' = tr1 ++ CallLmHead hidden_states tensor_parallel_output
                 :: match labels with
                    | Some l => [CallCriterion lm_logits l]
                    | None => []
                    end /\
    match out with
    | LmTupleOutput l =>
        return_dict = false /\
        l = match loss with
            | Some x => OutTensor x :: OutTensor lm_logits :: output_rest outputs
            | None => OutTensor lm_logits :: output_rest outputs
            end
    | LmDictOutput o =>
        return_dict = true /\
        CausalLMOutputWithPast.loss o = loss /\
        CausalLMOutputWithPast.logits o = lm_logits
    end.
Proof.
  intros Hrun. cbv zeta. unfold forward, bind in Hrun.
  match type of Hrun with context [QWenInferenceModel.forward ?a ?b ?c ?d ?e ?f ?g ?h ?i ?j ?k ?l ?m ?n ?o tr] =>
    destruct (QWenInferenceModel.forward a b c d e f g h i j k l m n o tr)
      as [[outputs|e0] tr1] eqn:Hinner; [|discriminate]
  end.
  unfold lift in Hrun.
  destruct (output_first outputs) as [hidden_states|e0] eqn:Hfirst; [|discriminate].
  exists outputs, tr1, hidden_states.
  split; [first [reflexivity | exact Hinner]|].
  split; [first [exact Hfirst | reflexivity]|].
  unfold call, ret, raise in Hrun.
  destruct labels as [l|]; simpl in Hrun |- *;
    destruct (default (QWenConfig.use_return_dict (config self)) return_dict);
    simpl in Hrun; try destruct outputs as [lo|o]; simpl in Hrun;
    try discriminate; injection Hrun as <- <-;
    rewrite <- ?app_assoc; simpl; auto.
Qed.

End CausalLM.


Lemma lm_forward_logits_and_loss_witness :
  Example.lm_call [] = (Ok Example.lm_output, Example.lm_trace) /\
  exists loss logits rest,
    Example.lm_output = LmTupleOutput (OutTensor loss :: OutTensor logits :: rest) /\
    In (CallCriterion logits Example.ids) Example.lm_trace.
Proof.
  assert (Hrun : Example.lm_call [] = (Ok Example.lm_output, Example.lm_trace))
    by reflexivity.
  split; [exact Hrun|].
  destruct (lm_forward_logits_and_loss (H := Example.toy) _ _ _ _ _ _ _ _ _ _ _ _ _
              _ _ _ _ _ _ Hrun)
    as (outputs & tr1 & hs & _ & _ & Htr & Hout).
  destruct Example.lm_output as [l|o]; [|destruct Hout; discriminate].
  destruct Hout as [_ ->]. do 3 eexists. split; [reflexivity|].
  rewrite Htr. apply in_or_app. right. right. left. reflexivity.
Defined.

(* ----------------------------------------------------------------- *)
(** *** [QWenInferenceModel.set_state_dict] *)

Section SetStateDict.
Context `{Framework}.
Import QWenInferenceModel.

Variable state_dict : gmap string (tensor Q).

Lemma for_each_app {St A} (l1 l2 : list A) (body : A -> M St unit) s :
  for_each (l1 ++ l2) body s
  = bind (for_each l1 body) (fun _ => for_each l2 body) s.
Proof.
  revert s. induction l1 as [|x l1 IH]; intros s; simpl.
  - reflexivity.
  - unfold bind in *. destruct (body x s) as [[[]|e] s']; [apply IH | reflexivity].
Qed.

Lemma for_range_S {St} n (body : nat -> M St unit) s :
  for_range (S n) body s
  = bind (for_range n body) (fun _ => body n) s.
Proof.
  unfold for_range. rewrite seq_S, for_each_app. simpl. unfold bind, ret.
  destruct (for_each (seq 0 n) body s) as [[[]|e] s']; [|reflexivity].
  destruct (body n s') as [[[]|e] s'']; reflexivity.
Qed.

(** [__init__] leaves a model that is [constructed]. *)
Lemma init_constructed config wte_weight block ln_f_weight self n :
  init config wte_weight block ln_f_weight = Ok self ->
  QWenConfig.num_hidden_layers config = Z.of_nat n ->
  (forall s, length (slot_get s block) = n) ->
  constructed self n.
Proof.
  unfold init, py_floordiv. intros Hinit Hn Hlen.
  destruct (Z.eqb_spec (QWenConfig.num_attention_heads config) 0) as [Hz|Hz];
    [discriminate|].
  simpl in Hinit. injection Hinit as <-. repeat split; auto.
Qed.

(** Claim C4.  What the code does instead: on a model of [n] layers and
    a state dictionary that has every name the claim speaks of,
    [set_state_dict] hands ["qwen.wte.weight"] to the embedding table
    and then ends in the [TypeError] of line 161, where [dtype=] is a
    keyword of [set_value]; the final norm and every slot of the fused
    block keep the parameters they had, so no layer is loaded. *)
Theorem set_state_dict_raises_at_ln_f (self : QWenInferenceModel.t) (n : nat) :
  constructed self n ->
  complete state_dict n ->
  exists w self',
    state_dict !! "qwen.wte.weight" = Some w /\
    set_state_dict state_dict self
    = (Raise (Exn TypeError "set_value() got an unexpected keyword argument 'dtype'"),
       self') /\
    wte self' = set_value (wte self) (to_tensor w None) /\
    ln_f self' = ln_f self /\
    forall s, slot_get s (transformer_block self')
              = slot_get s (transformer_block self).
Proof.
  intros (Hn & Hheads & Hlen) ([w1 Hw1] & [w2 Hw2] & Hlayers).
  exists w1, (with_wte (set_value (wte self) (to_tensor w1 None)) self).
  split; [exact Hw1|]. split; [|repeat split].
  unfold set_state_dict, bind, get, lift, modify, py_floordiv, dict_getitem.
  destruct (Z.eqb_spec (num_attention_heads self) 0) as [Hz|_]; [contradiction|].
  now rewrite Hw1, Hw2.
Qed.

End SetStateDict.

Lemma set_state_dict_raises_at_ln_f_witness :
  exists w self',
    Example.state_dict !! "qwen.wte.weight" = Some w /\
    QWenInferenceModel.set_state_dict (H := Example.toy) Example.state_dict
      Example.model
    = (Raise (Exn TypeError "set_value() got an unexpected keyword argument 'dtype'"),
       self') /\
    QWenInferenceModel.wte self'
    = set_value (Framework := Example.toy) (QWenInferenceModel.wte Example.model)
        (to_tensor (Framework := Example.toy) w None) /\
    QWenInferenceModel.ln_f self' = QWenInferenceModel.ln_f Example.model /\
    forall s,
      QWenInferenceModel.slot_get s (QWenInferenceModel.transformer_block self')
      = QWenInferenceModel.slot_get s
          (QWenInferenceModel.transformer_block Example.model).
Proof.
  apply (set_state_dict_raises_at_ln_f (H := Example.toy) Example.state_dict
           Example.model 1).
  - split; [reflexivity|]. split; [discriminate|]. intros []; reflexivity.
  - split; [vm_compute; eauto|]. split; [vm_compute; eauto|].
    intros idx Hidx. assert (idx = 0) as -> by lia. split.
    + intros suffix Hin. simpl in Hin.
      repeat (destruct Hin as [<-|Hin]; [vm_compute; eauto|]). contradiction.
    + intros w1 w2 H1 H2. vm_compute in H1, H2.
      injection H1 as <-. injection H2 as <-. eexists. reflexivity.
Defined.

(** The model of [Example] is what [__init__] builds. *)
Example model_is_init :
  QWenInferenceModel.init Example.config (Example.vec [0]%Q) Example.block
    (Example.vec [1; 1]%Q) = Ok Example.model.
Proof. reflexivity. Qed.

(** The complete dictionary of [Example]: the embedding table is
    replaced, the final norm and layer 0 are not. *)
Example set_state_dict_example :
  QWenInferenceModel.set_state_dict (H := Example.toy) Example.state_dict
    Example.model
  = (Raise (Exn TypeError "set_value() got an unexpected keyword argument 'dtype'"),
     QWenInferenceModel.with_wte (Example.vec [5]%Q) Example.model).
Proof. vm_compute. reflexivity. Qed.

(* ----------------------------------------------------------------- *)
(** *** [QWenForCausalLMInferenceModel.get_cache_kvs_shape] *)

Section CacheShapes.
Import QWenForCausalLMInferenceModel.

(** A loop whose turns all append the same entry. *)
Lemma for_range_append {A} (body : nat -> M (list A) unit) (x : A) n :
  (forall i l, body i l = (Ok tt, l ++ [x])) ->
  forall l, for_range n body l = (Ok tt, l ++ repeat x n).
Proof.
  intros Hbody. induction n as [|n IH]; intros l.
  - simpl. now rewrite app_nil_r.
  - rewrite for_range_S. unfold bind. rewrite IH, Hbody.
    rewrite <- app_assoc. do 2 f_equal.
    change [x] with (repeat x 1). rewrite <- repeat_app. f_equal. lia.
Qed.

(** Extra X3.  [get_cache_kvs_shape] returns one shape per hidden layer,
    each [[2; max_batch_size; heads // max(tensor_parallel_degree, 1);
    max_length; hidden_size // heads]], with [max_length] defaulting to
    [max_position_embeddings]; it returns the empty list when there is no
    layer, and otherwise raises [ZeroDivisionError] when the head count
    is zero. *)
Theorem get_cache_kvs_shape_layers (config : QWenConfig.t)
    (max_batch_size max_length : option Z) :
  let layers := Z.to_nat (QWenConfig.num_hidden_layers config) in
  let heads := QWenConfig.num_attention_heads config in
  let shape :=
    [Some 2%Z; max_batch_size;
     Some (heads / Z.max (QWenConfig.tensor_parallel_degree config) 1)%Z;
     Some (default (QWenConfig.max_position_embeddings config) max_length);
     Some (QWenConfig.hidden_size config / heads)%Z] in
  get_cache_kvs_shape config max_batch_size max_length
  = if layers =? 0 then Ok []
    else if (heads =? 0)%Z
         then Raise (Exn ZeroDivisionError "integer division or modulo by zero")
         else Ok (repeat shape layers).
Proof.
  cbv zeta. unfold get_cache_kvs_shape.
  assert (Hmax : (Z.max (QWenConfig.tensor_parallel_degree config) 1 =? 0)%Z = false)
    by (apply Z.eqb_neq; lia).
  destruct (Z.to_nat (QWenConfig.num_hidden_layers config)) as [|n] eqn:Hn.
  - reflexivity.
  - cbn [Nat.eqb]. destruct (Z.eqb_spec (QWenConfig.num_attention_heads config) 0) as [Hz|Hz].
    + unfold for_range. simpl. unfold bind, lift, py_floordiv. rewrite Hmax, Hz. reflexivity.
    + rewrite (for_range_append _
                 [Some 2%Z; max_batch_size;
                  Some (QWenConfig.num_attention_heads config
                        / Z.max (QWenConfig.tensor_parallel_degree config) 1)%Z;
                  Some (default (QWenConfig.max_position_embeddings config) max_length);
                  Some (QWenConfig.hidden_size config
                        / QWenConfig.num_attention_heads config)%Z]).
      * reflexivity.
      * intros i l. unfold bind, lift, modify, py_floordiv. rewrite Hmax.
        destruct (Z.eqb_spec (QWenConfig.num_attention_heads config) 0); [contradiction|].
        now destruct max_length.
Qed.
End CacheShapes.

(* ----------------------------------------------------------------- *)
(** *** [get_masks] with a padding mask *)

Module PaddingMaskFacts.
Import QWenInferenceModel GetMasksFacts TensorFacts.

(** The shared end of every branch: the causal mask and a boolean
    padding mask of the full shape. *)
Lemma get_masks_and (b s p : nat) (c pad : tensor bool) :
  t_shape c = [b; 1; s; s + p] ->
  t_shape pad = [b; 1; s; s + p] ->
  (forall i q k, i < b -> q < s -> k < s + p ->
     tget false c [i; 0; q; k] = (k <=? q + p)) ->
  exists m, tand c pad = Ok m /\
    t_dtype m = DBool /\ t_shape m = [b; 1; s; s + p] /\
    forall i q k, i < b -> q < s -> k < s + p ->
      tget false m [i; 0; q; k] = (k <=? q + p) && tget false pad [i; 0; q; k].
Proof.
  intros Hc Hpad Hent.
  destruct (tand_same_shape c pad) as (m & Hm & Hd & Hs & He); [congruence|].
  exists m. rewrite Hs, Hc. repeat split; auto.
  intros i q k Hi Hq Hk.
  rewrite He by (rewrite Hc; apply in_range4; lia). now rewrite Hent.
Qed.

Lemma expand_ok_2d b s p B L :
  expand_ok [B; 1; 1; L] [b; 1; s; s + p]
  = ((B =? b) || (B =? 1)) && ((L =? s + p) || (L =? 1)).
Proof.
  unfold expand_ok. simpl. now rewrite orb_true_r, andb_true_r.
Qed.

(** A two-dimensional mask that broadcasts. *)
Lemma get_masks_2d_ok (b s p : nat) (pm : tensor Q) B L :
  1 <= b -> 1 <= s ->
  t_shape pm = [B; L] ->
  ((B =? b) || (B =? 1)) && ((L =? s + p) || (L =? 1)) = true ->
  exists m,
    get_masks b s p (Some pm) = Ok m /\
    t_dtype m = DBool /\ t_shape m = [b; 1; s; s + p] /\
    forall i q k, i < b -> q < s -> k < s + p ->
      tget false m [i; 0; q; k]
      = (k <=? q + p)
        && negb (Qeq_bool (tget 0%Q pm
                             [if B =? 1 then 0 else i; if L =? 1 then 0 else k]) 0).
Proof.
  intros Hb1 Hs1 Hpm Hok. unfold get_masks.
  destruct (causal_mask b s p Hb1 Hs1) as (c & -> & Hsc & Hc). simpl.
  rewrite Hpm. simpl length. cbv iota.
  unfold expand, unsqueeze. rewrite Hpm. simpl fold_left. cbn [t_shape].
  rewrite expand_ok_2d, Hok. simpl.
  match goal with |- context [tand c ?pad] =>
    destruct (get_masks_and b s p c pad Hsc eq_refl Hc) as (m & -> & Hd & Hs & Hm)
  end.
  exists m. repeat split; auto.
  intros i q k Hi Hq Hk. rewrite Hm by lia. f_equal.
  rewrite tget_astype_bool. rewrite tget_tinit by (apply in_range4; lia).
  unfold bidx. simpl. unfold tget. simpl. rewrite Hpm. simpl.
  do 3 f_equal. lia.
Qed.

End PaddingMaskFacts.

Section PaddingMasks.
Import QWenInferenceModel GetMasksFacts TensorFacts PaddingMaskFacts.

(** Extra X4.  For a batch of at least one request of at least one
    token, a padding mask of shape [[b; s; s + p]] or
    [[b; 1; s; s + p]] is taken entry by entry: the result has shape
    [[b; 1; s; s + p]] and its entry [(i, 0, q, k)] is the causal entry
    [k <= q + p] and the truth value of the padding entry at [(i, q, k)],
    respectively [(i, 0, q, k)]. *)
Theorem get_masks_padding_3d_4d (b s p : nat) (padding_mask : tensor Q) :
  1 <= b -> 1 <= s ->
  (t_shape padding_mask = [b; s; s + p] ->
   exists m,
     get_masks b s p (Some padding_mask) = Ok m /\
     t_dtype m = DBool /\ t_shape m = [b; 1; s; s + p] /\
     forall i q k, i < b -> q < s -> k < s + p ->
       tget false m [i; 0; q; k]
       = (k <=? q + p) && negb (Qeq_bool (tget 0%Q padding_mask [i; q; k]) 0))
  /\
  (t_shape padding_mask = [b; 1; s; s + p] ->
   exists m,
     get_masks b s p (Some padding_mask) = Ok m /\
     t_dtype m = DBool /\ t_shape m = [b; 1; s; s + p] /\
     forall i q k, i < b -> q < s -> k < s + p ->
       tget false m [i; 0; q; k]
       = (k <=? q + p) && negb (Qeq_bool (tget 0%Q padding_mask [i; 0; q; k]) 0)).
Proof.
  intros Hb1 Hs1.
  split; intros Hpm; unfold get_masks;
    destruct (causal_mask b s p Hb1 Hs1) as (c & -> & Hsc & Hc); simpl;
    rewrite Hpm; simpl length; cbv iota; simpl.
  - match goal with |- context [tand c ?pad] =>
      destruct (get_masks_and b s p c pad Hsc) as (m & -> & Hd & Hs & Hm);
        [simpl; now rewrite Hpm | exact Hc |]
    end.
    exists m. repeat split; auto.
    intros i q k Hi Hq Hk. rewrite Hm by lia. f_equal.
    rewrite tget_astype_bool. unfold tget, unsqueeze. simpl. rewrite Hpm. simpl.
    do 3 f_equal. lia.
  - match goal with |- context [tand c ?pad] =>
      destruct (get_masks_and b s p c pad Hsc) as (m & -> & Hd & Hs & Hm);
        [simpl; now rewrite Hpm | exact Hc |]
    end.
    exists m. repeat split; auto.
    intros i q k Hi Hq Hk. rewrite Hm by lia. f_equal.
    apply tget_astype_bool.
Qed.

(** Extra X5.  For a batch of at least one request of at least one
    token, a two-dimensional padding mask of shape [[B; L]] is
    accepted exactly when it broadcasts: [B] is the batch size or one and
    [L] is [s + p] or one; any other shape ends in the [ValueError] of
    [expand]. *)
Theorem get_masks_padding_2d_accepted (b s p : nat) (padding_mask : tensor Q) B L :
  1 <= b -> 1 <= s ->
  t_shape padding_mask = [B; L] ->
  ((exists m, get_masks b s p (Some padding_mask) = Ok m)
   <-> (B = b \/ B = 1) /\ (L = s + p \/ L = 1))
  /\
  (~ ((B = b \/ B = 1) /\ (L = s + p \/ L = 1)) ->
   get_masks b s p (Some padding_mask)
   = Raise (Exn ValueError
       "expand: the shape of the input cannot be expanded to the target shape")).
Proof.
  intros Hb1 Hs1 Hpm.
  assert (Hiff : ((B =? b) || (B =? 1)) && ((L =? s + p) || (L =? 1)) = true
                 <-> (B = b \/ B = 1) /\ (L = s + p \/ L = 1)).
  { rewrite andb_true_iff, !orb_true_iff, !Nat.eqb_eq. tauto. }
  assert (Hbad : ((B =? b) || (B =? 1)) && ((L =? s + p) || (L =? 1)) = false ->
                 get_masks b s p (Some padding_mask)
                 = Raise (Exn ValueError
                     "expand: the shape of the input cannot be expanded to the target shape")).
  { intros Hno. unfold get_masks.
    destruct (causal_mask b s p Hb1 Hs1) as (c & -> & _ & _). simpl.
    rewrite Hpm. simpl length. cbv iota.
    unfold expand, unsqueeze. rewrite Hpm. simpl fold_left. cbn [t_shape].
    now rewrite expand_ok_2d, Hno. }
  destruct (((B =? b) || (B =? 1)) && ((L =? s + p) || (L =? 1))) eqn:Hok.
  - split.
    + split; [intros _; now apply Hiff|].
      intros _.
      destruct (get_masks_2d_ok b s p padding_mask B L Hb1 Hs1 Hpm Hok) as (m & Hm & _).
      eauto.
    + intros Hno. exfalso. apply Hno. now apply Hiff.
  - split.
    + split.
      * intros [m Hm]. rewrite (Hbad eq_refl) in Hm. discriminate.
      * intros Hyes. apply Hiff in Hyes. discriminate.
    + intros _. now apply Hbad.
Qed.

End PaddingMasks.

Lemma get_masks_padding_2d_accepted_witness :
  t_shape (mkTensor DInt64 [1; 2] [1; 1]%Q) = [1; 2] /\
  QWenInferenceModel.get_masks 1 2 1 (Some (mkTensor DInt64 [1; 2] [1; 1]%Q))
  = Raise (Exn ValueError
      "expand: the shape of the input cannot be expanded to the target shape").
Proof.
  split; [reflexivity|].
  apply (proj2 (get_masks_padding_2d_accepted 1 2 1
                  (mkTensor DInt64 [1; 2] [1; 1]%Q) 1 2
                  (Nat.le_refl 1) (Nat.le_succ_diag_r 1) eq_refl)).
  intros [_ [Hl|Hl]]; discriminate.
Defined.

Lemma get_masks_padding_3d_4d_witness :
  exists m,
    QWenInferenceModel.get_masks 1 2 1
      (Some (mkTensor DInt64 [1; 2; 3] [1; 1; 1; 0; 1; 1]%Q)) = Ok m /\
    t_data m = [true; true; false; false; true; true].
Proof.
  destruct (proj1 (get_masks_padding_3d_4d 1 2 1
                     (mkTensor DInt64 [1; 2; 3] [1; 1; 1; 0; 1; 1]%Q)
                     (Nat.le_refl 1) (Nat.le_succ_diag_r 1)) eq_refl)
    as (m & Hm & _).
  exists m. split; [exact Hm|].
  vm_compute in Hm. injection Hm as <-. reflexivity.
Defined.

(* ----------------------------------------------------------------- *)
(** *** From [prepare_inputs_for_generation] to [get_masks] *)

Section PreparedMask.
Context `{Framework}.
Import QWenInferenceModel QWenForCausalLMInferenceModel TensorFacts PaddingMaskFacts.

Lemma scaled_zero_iff (v : Q) :
  Qeq_bool ((v - 1) * 10000) 0 = Qeq_bool v 1.
Proof.
  destruct (Qeq_bool v 1) eqn:Hv.
  - apply Qeq_bool_iff in Hv. apply Qeq_bool_iff. rewrite Hv. reflexivity.
  - apply not_true_iff_false. intros Hz. apply Qeq_bool_iff in Hz.
    apply not_true_iff_false in Hv. apply Hv. apply Qeq_bool_iff.
    destruct (Qmult_integral _ _ Hz) as [H1|H1]; [|discriminate].
    apply (Qplus_inj_r _ _ (-1%Q)). rewrite H1. reflexivity.
Qed.

(** Extra X6.  The attention mask that [prepare_inputs_for_generation]
    puts into its result, handed to [get_masks] as the padding mask of a
    batch it fits (at least one request of at least one token), lets a
    key through exactly where the causal mask does and the original mask
    value is not one.  This is for a mask of zeros and ones that is an
    integer tensor or a [float16], [float32] or [float64] tensor, under
    a framework that rounds to nearest: the scaling [(x - 1) * 1e4]
    sends one to zero, which counts as [False]. *)
Theorem prepared_attention_mask_in_get_masks
    (input_ids cache_kvs seq_len_encoder seq_len_decoder
     tgt_ids tgt_pos tgt_generation_mask : pyobj)
    (kwargs : gmap string pyobj) (mask : tensor Q) (b s p : nat) :
  exact_rounding ->
  1 <= b -> 1 <= s ->
  as_numeric (if is_none (kwargs_get kwargs "cache")
              then kwargs_get kwargs "attention_mask"
              else tgt_generation_mask) = Some mask ->
  mask_dtype (t_dtype mask) = true ->
  zero_one mask ->
  t_shape mask = [b; s + p] ->
  length (t_data mask) = b * (s + p) ->
  exists model_inputs scaled m,
    prepare_inputs_for_generation input_ids cache_kvs seq_len_encoder
      seq_len_decoder tgt_ids tgt_pos tgt_generation_mask kwargs = Ok model_inputs /\
    model_inputs !! "attention_mask" = Some (PyTensor scaled) /\
    get_masks b s p (Some scaled) = Ok m /\
    forall i q k, i < b -> q < s -> k < s + p ->
      tget false m [i; 0; q; k]
      = (k <=? q + p) && negb (Qeq_bool (tget 0%Q mask [i; k]) 1).
Proof.
  intros Hexact Hb1 Hs1 Hmask Hdt H01 Hshape Hlen.
  set (scaled := mkTensor (product_dtype (t_dtype mask)) (t_shape mask)
                   (map (fun v => (v - 1) * 10000)%Q (t_data mask))).
  assert (Hprep : exists model_inputs,
            prepare_inputs_for_generation input_ids cache_kvs seq_len_encoder
              seq_len_decoder tgt_ids tgt_pos tgt_generation_mask kwargs
            = Ok model_inputs /\
            model_inputs !! "attention_mask" = Some (PyTensor scaled)).
  { pose proof (scale_zero_one _ mask Hexact Hmask Hdt H01) as Hscale.
    unfold prepare_inputs_for_generation.
    destruct (is_none (kwargs_get kwargs "cache")); cbn [negb];
      unfold rbind in Hscale |- *;
      match type of Hscale with
      | match ?x with _ => _ end = _ => destruct x as [d|e]; [|discriminate]
      end;
      rewrite Hscale; eexists; (split; [reflexivity|]); reflexivity. }
  destruct Hprep as (model_inputs & Hrun & Hatt).
  destruct (get_masks_2d_ok b s p scaled b (s + p) Hb1 Hs1) as (m & Hm & _ & _ & Hent).
  { exact Hshape. }
  { now rewrite !Nat.eqb_refl. }
  exists model_inputs, scaled, m. repeat split; auto.
  intros i q k Hi Hq Hk. rewrite Hent by lia. f_equal. f_equal.
  assert (Hidx : tget 0%Q scaled [if b =? 1 then 0 else i; if s + p =? 1 then 0 else k]
                 = ((tget 0%Q mask [i; k] - 1) * 10000)%Q).
  { replace (if b =? 1 then 0 else i) with i
      by (destruct (Nat.eqb_spec b 1); lia).
    replace (if s + p =? 1 then 0 else k) with k
      by (destruct (Nat.eqb_spec (s + p) 1); lia).
    unfold tget, scaled. simpl. rewrite Hshape.
    assert (Hr : ravel [b; s + p] [i; k] < length (t_data mask)).
    { rewrite Hlen. replace (b * (s + p)) with (numel [b; s + p]) by (simpl; lia).
      apply ravel_lt. repeat constructor; lia. }
    rewrite (nth_indep _ 0%Q ((fun v => (v - 1) * 10000)%Q 0%Q))
      by now rewrite length_map.
    now rewrite (map_nth (fun v => (v - 1) * 10000)%Q). }
  rewrite Hidx. apply scaled_zero_iff.
Qed.

End PreparedMask.

(** The tokenizer's [int64] mask [[0; 1; 1]], whose first key is
    padding. *)
Lemma prepared_attention_mask_in_get_masks_witness :
  exists model_inputs scaled m,
    QWenForCausalLMInferenceModel.prepare_inputs_for_generation (H := Example.toy)
      PyNone PyNone PyNone PyNone PyNone PyNone PyNone
      {["attention_mask" := PyIntTensor (mkTensor DInt64 [1; 3] [0; 1; 1]%Z)]}
    = Ok model_inputs /\
    model_inputs !! "attention_mask" = Some (PyTensor scaled) /\
    QWenInferenceModel.get_masks 1 2 1 (Some scaled) = Ok m /\
    forall i q k, i < 1 -> q < 2 -> k < 2 + 1 ->
      tget false m [i; 0; q; k]
      = (k <=? q + 1)
        && negb (Qeq_bool (tget 0%Q (mkTensor DInt64 [1; 3] [0; 1; 1]%Q) [i; k]) 1).
Proof.
  assert (Hexact : exact_rounding (H := Example.toy)) by (intros dt q _ _; reflexivity).
  assert (H01 : zero_one (mkTensor DInt64 [1; 3] [0; 1; 1]%Q))
    by (repeat (constructor; [auto|]); constructor).
  apply (prepared_attention_mask_in_get_masks (H := Example.toy) PyNone PyNone PyNone
           PyNone PyNone PyNone PyNone
           {["attention_mask" := PyIntTensor (mkTensor DInt64 [1; 3] [0; 1; 1]%Z)]}
           (mkTensor DInt64 [1; 3] [0; 1; 1]%Q) 1 2 1 Hexact
           (Nat.le_refl 1) (Nat.le_succ_diag_r 1)); try reflexivity.
  exact H01.
Defined.

(** The tokenizer's mask [[0; 1; 1]] (first key is padding), prepared and
    then masked: only the padding key is let through. *)
Example prepared_mask_example :
  QWenInferenceModel.get_masks 1 2 1
    (Some (mkTensor DFloat32 [1; 3] [-10000; 0; 0]%Q))
  = Ok (mkTensor DBool [1; 1; 2; 3] [true; false; false; true; false; false]).
Proof. reflexivity. Qed.

(* ----------------------------------------------------------------- *)
(** *** The calls [QWenInferenceModel.forward] makes *)

Section ForwardCalls.
Context `{Framework}.
Import QWenInferenceModel MaskFacts.

Variables (self : QWenInferenceModel.t)
  (input_ids position_ids : option (tensor Z))
  (attention_mask inputs_embeds : option (tensor Q))
  (use_cache : option bool)
  (cache_kvs pre_caches : option (list (tensor Q)))
  (seq_len_encoder seq_len_decoder : option (tensor Z))
  (past_key_values : pyobj)
  (output_attentions output_hidden_states return_dict : option bool)
  (kwargs : gmap string pyobj).

Local Abbreviation run_forward :=
  (forward self input_ids position_ids attention_mask inputs_embeds use_cache
     cache_kvs pre_caches seq_len_encoder seq_len_decoder past_key_values
     output_attentions output_hidden_states return_dict kwargs).

Lemma forward_order_post :
  post run_forward
       (fun r evs =>
          map op_of evs `prefix_of` forward_ops inputs_embeds /\
          (forall out, r = Ok out -> map op_of evs = forward_ops inputs_embeds)).
Proof.
  unfold forward_ops.
  destruct (is_none (kwargs_get kwargs "cache")) eqn:Hc.
  - eapply post_weaken;
      [apply forward_encoder_post; now destruct (kwargs_get kwargs "cache")|].
    intros r evs (-> & e & -> & _). simpl. split; [apply prefix_nil | discriminate].
  - unfold forward. rewrite Hc.
    unfold remove_padding, FusedQWenRMSNorm.forward. cbv zeta. cbn [negb andb].
    repeat mstep.
    all: simpl in *; try discriminate.
    all: split; [eexists; reflexivity | intros; try discriminate; try reflexivity].
Qed.

Lemma forward_block_post :
  post run_forward
       (fun _ evs => forall c, In (CallBlock c) evs ->
          FMT.input_ids c = input_ids /\
          FMT.cum_offsets c = None /\
          FMT.padding_offset c = None /\
          FMT.caches c = cache_kvs /\
          FMT.pre_caches c = pre_caches /\
          FMT.seq_lens c = seq_len_decoder /\
          FMT.rotary_emb_dims c = 1%Z /\
          FMT.rotary_embs c
          = fused_get_rotary_embedding input_ids position_ids
              (head_dim_shape_tensor self) 0 true /\
          (exists n, shape_last (t_shape (FMT.attn_mask c)) = Ok n /\
                     FMT.time_step c = Some (Z.of_nat n - 1)%Z) /\
          match inputs_embeds with
          | None => exists ids, input_ids = Some ids /\
                                FMT.src c = embedding (wte self) ids
          | Some e => exists b s h, t_shape e = [b; s; h] /\
                                    FMT.src c = mkTensor (t_dtype e) [b * s; h] (t_data e)
          end).
Proof.
  destruct (is_none (kwargs_get kwargs "cache")) eqn:Hc.
  - eapply post_weaken;
      [apply forward_encoder_post; now destruct (kwargs_get kwargs "cache")|].
    intros r evs (-> & _) c [].
  - unfold forward. rewrite Hc.
    unfold remove_padding, FusedQWenRMSNorm.forward. cbv zeta. cbn [negb andb].
    repeat mstep.
    all: intros c Hin; simpl in Hin.
    all: repeat (destruct Hin as [Hin|Hin]; [try discriminate|]); try contradiction.
    all: injection Hin as <-; cbn [FMT.input_ids FMT.cum_offsets FMT.padding_offset
           FMT.caches FMT.pre_caches FMT.seq_lens FMT.rotary_emb_dims FMT.rotary_embs
           FMT.attn_mask FMT.time_step FMT.src].
    all: simpl in *; simplify_eq.
    all: repeat split; auto.
    all: unfold cast; cbn [where_ tinit zeros t_dtype t_shape];
      rewrite ?dtype_eqb_refl; cbn [t_shape]; eauto.
    all: unfold unpack3, reshape in *; repeat case_match; simplify_eq; eauto.
Qed.

(** Extra X7.  Whatever the arguments, [forward] calls the operators in
    one order and each at most once: the embedding layer (only when no
    [inputs_embeds] is given), the rotary-embedding operator, the fused
    block, the final norm.  It never calls the padding-offset operator,
    and a call that completes has made all of these calls. *)
Theorem forward_operator_order tr r tr' :
  run_forward tr = (r, tr') ->
  exists evs,
    tr' = tr ++ evs /\
    map op_of evs `prefix_of` forward_ops inputs_embeds /\
    ~ In OpGetPaddingOffset (map op_of evs) /\
    (forall out, r = Ok out -> map op_of evs = forward_ops inputs_embeds).
Proof.
  intros Hrun.
  destruct (post_run _ _ _ _ _ forward_order_post Hrun) as (evs & Htr & Hpre & Hall).
  exists evs. repeat split; auto.
  intros Hin. destruct Hpre as [k Hk].
  assert (Hops : In OpGetPaddingOffset (forward_ops inputs_embeds))
    by (rewrite Hk; apply in_or_app; now left).
  unfold forward_ops in Hops. destruct inputs_embeds; simpl in Hops;
    intuition discriminate.
Qed.

(** Extra X8.  What the fused block is called with: [input_ids],
    [cache_kvs] and [pre_caches] as given, [seq_len_decoder] as the
    sequence lengths, no cumulative and no padding offsets, the rotary
    embedding computed with offset 0, [rotary_emb_dims = 1], a
    [time_step] one below the last axis of the attention mask, and as
    hidden states the embedding of [input_ids] or else [inputs_embeds]
    flattened to two axes. *)
Theorem forward_block_arguments tr r tr' :
  run_forward tr = (r, tr') ->
  exists evs,
    tr' = tr ++ evs /\
    forall c, In (CallBlock c) evs ->
      FMT.input_ids c = input_ids /\
      FMT.cum_offsets c = None /\
      FMT.padding_offset c = None /\
      FMT.caches c = cache_kvs /\
      FMT.pre_caches c = pre_caches /\
      FMT.seq_lens c = seq_len_decoder /\
      FMT.rotary_emb_dims c = 1%Z /\
      FMT.rotary_embs c
      = fused_get_rotary_embedding input_ids position_ids
          (head_dim_shape_tensor self) 0 true /\
      (exists n, shape_last (t_shape (FMT.attn_mask c)) = Ok n /\
                 FMT.time_step c = Some (Z.of_nat n - 1)%Z) /\
      match inputs_embeds with
      | None => exists ids, input_ids = Some ids /\
                            FMT.src c = embedding (wte self) ids
      | Some e => exists b s h, t_shape e = [b; s; h] /\
                                FMT.src c = mkTensor (t_dtype e) [b * s; h] (t_data e)
      end.
Proof.
  intros Hrun. exact (post_run _ _ _ _ _ forward_block_post Hrun).
Qed.

End ForwardCalls.

Lemma forward_operator_order_witness :
  Example.decoder_call [] = (Ok Example.decoder_output, Example.decoder_trace) /\
  map op_of Example.decoder_trace = [OpEmbedding; OpRotary; OpBlock; OpRmsNorm].
Proof.
  split; [reflexivity|].
  pose proof (forward_operator_order (H := Example.toy) Example.model
                (Some Example.ids) None None None None None None None None PyNone
                None None None {["cache" := Example.cache]} []
                (Ok Example.decoder_output) Example.decoder_trace) as Hw.
  destruct Hw as (evs & Htr & _ & _ & Hok); [reflexivity|].
  simpl in Htr. rewrite Htr. exact (Hok _ eq_refl).
Defined.

Lemma forward_block_arguments_witness :
  Example.decoder_call [] = (Ok Example.decoder_output, Example.decoder_trace) /\
  forall c, In (CallBlock c) Example.decoder_trace ->
    FusedMultiTransformerBase.cum_offsets c = None /\
    FusedMultiTransformerBase.padding_offset c = None /\
    FusedMultiTransformerBase.seq_lens c = None.
Proof.
  split; [reflexivity|].
  pose proof (forward_block_arguments (H := Example.toy) Example.model
                (Some Example.ids) None None None None None None None None PyNone
                None None None {["cache" := Example.cache]} []
                (Ok Example.decoder_output) Example.decoder_trace) as Hw.
  destruct Hw as (evs & Htr & Hblock); [reflexivity|].
  simpl in Htr. rewrite Htr. intros c Hin.
  destruct (Hblock c Hin) as (_ & Hc & Hp & _ & _ & Hs & _).
  repeat split; assumption.
Defined.

(** The fused block of the example call is called at time step 3: two
    tokens in the cache and two new ones. *)
Example decoder_call_time_step :
  exists c, In (CallBlock c) Example.decoder_trace /\
            FusedMultiTransformerBase.time_step c = Some 3%Z.
Proof. eexists. split; [right; right; left; reflexivity | reflexivity]. Qed.

(* ----------------------------------------------------------------- *)
(** *** The [cache] keyword of [QWenInferenceModel.forward] *)

Section ForwardCache.
Context `{Framework}.
Import QWenInferenceModel MaskFacts.

Variables (self : QWenInferenceModel.t)
  (ids : tensor Z) (position_ids : option (tensor Z))
  (use_cache : option bool)
  (cache_kvs pre_caches : option (list (tensor Q)))
  (seq_len_encoder seq_len_decoder : option (tensor Z))
  (past_key_values : pyobj)
  (output_attentions output_hidden_states return_dict : option bool)
  (kwargs : gmap string pyobj).

(** Extra X9.  With token ids of shape [[b; s; ...]], no padding mask and
    a [cache] whose first key has [p] as its second axis, the fused
    block gets an attention mask of shape [[b; 1; s; s + p]] and the
    time step [s + p - 1]. *)
Theorem forward_time_step (b s p : nat) (rest : list nat) tr r tr' :
  t_shape ids = b :: s :: rest ->
  cache_past_length (kwargs_get kwargs "cache") = Ok p ->
  forward self (Some ids) position_ids None None use_cache cache_kvs pre_caches
    seq_len_encoder seq_len_decoder past_key_values output_attentions
    output_hidden_states return_dict kwargs tr = (r, tr') ->
  exists evs,
    tr' = tr ++ evs /\
    forall c, In (CallBlock c) evs ->
      t_shape (FMT.attn_mask c) = [b; 1; s; s + p] /\
      FMT.time_step c = Some (Z.of_nat (s + p) - 1)%Z.
Proof.
  intros Hids Hp Hrun.
  assert (Hc : is_none (kwargs_get kwargs "cache") = false)
    by (destruct (kwargs_get kwargs "cache"); [discriminate Hp | reflexivity..]).
  refine (post_run _ _ _ _ _ _ Hrun).
  unfold forward. rewrite Hc, Hids.
  unfold FusedQWenRMSNorm.forward. cbv zeta. cbn [negb andb].
  repeat mstep.
  all: intros c Hin; simpl in Hin.
  all: repeat (destruct Hin as [Hin|Hin]; [try discriminate|]); try contradiction.
  all: injection Hin as <-; cbn [FMT.attn_mask FMT.time_step].
  all: unfold cache_past_length, rbind in Hp.
  all: repeat match goal with
         | E : py_getitem _ _ = Ok _ |- _ => rewrite E in Hp; cbv beta iota in Hp; clear E
         | E : py_shape _ = Ok _ |- _ => rewrite E in Hp; cbv beta iota in Hp; clear E
         end.
  all: cbn [shape_index nth_error] in *; simplify_eq.
  all: match goal with
       | E : get_masks _ _ ?a None = Ok _ |- _ =>
           assert (a = p) by congruence; subst a;
           pose proof (get_masks_none_shape _ _ _ _ E) as Hsm
       end.
  all: unfold cast, where_, tinit; rewrite dtype_eqb_refl; cbn [t_shape].
  all: match goal with
       | E : shape_last (t_shape _) = Ok _ |- _ =>
           unfold where_, tinit in E; cbn [t_shape] in E; rewrite Hsm in E;
           unfold shape_last in E; simpl in E; injection E as <-
       end.
  all: split; [exact Hsm | reflexivity].
Qed.

(** Extra X10.  A [cache] keyword that is not [None] but from which
    [cache[0][0].shape[1]] cannot be read makes [forward] end with the
    exception of that expression, before any operator is called. *)
Theorem forward_cache_error (attention_mask : option (tensor Q)) (e : exn) :
  kwargs_get kwargs "cache" <> PyNone ->
  cache_past_length (kwargs_get kwargs "cache") = Raise e ->
  forall tr,
    forward self (Some ids) position_ids attention_mask None use_cache cache_kvs
      pre_caches seq_len_encoder seq_len_decoder past_key_values output_attentions
      output_hidden_states return_dict kwargs tr = (Raise e, tr).
Proof.
  intros Hne Hp tr.
  assert (Hc : is_none (kwargs_get kwargs "cache") = false)
    by (destruct (kwargs_get kwargs "cache"); [congruence | reflexivity..]).
  unfold cache_past_length in Hp.
  unfold forward. rewrite Hc. cbv zeta.
  unfold bind, lift, ret. simpl.
  destruct (py_getitem (kwargs_get kwargs "cache") 0) as [layer|e1];
    simpl in Hp |- *; [|congruence].
  destruct (py_getitem layer 0) as [key|e1]; simpl in Hp |- *; [|congruence].
  destruct (py_shape key) as [shape|e1]; simpl in Hp |- *; [|congruence].
  rewrite Hp. reflexivity.
Qed.

End ForwardCache.

Lemma forward_time_step_witness :
  Example.decoder_call [] = (Ok Example.decoder_output, Example.decoder_trace) /\
  forall c, In (CallBlock c) Example.decoder_trace ->
    t_shape (FusedMultiTransformerBase.attn_mask c) = [1; 1; 2; 2 + 2] /\
    FusedMultiTransformerBase.time_step c = Some (Z.of_nat (2 + 2) - 1)%Z.
Proof.
  split; [reflexivity|].
  pose proof (forward_time_step (H := Example.toy) Example.model Example.ids
                None None None None None None PyNone None None None
                {["cache" := Example.cache]} 1 2 2 [] []
                (Ok Example.decoder_output) Example.decoder_trace) as Hw.
  destruct Hw as (evs & Htr & Hblock); [reflexivity..|].
  simpl in Htr. rewrite Htr. exact Hblock.
Defined.

(** [forward(ids, cache=0)]: the marker is no sequence of layers. *)
Lemma forward_cache_error_witness :
  QWenInferenceModel.forward (H := Example.toy) Example.model (Some Example.ids)
    None None None None None None None None PyNone None None None
    {["cache" := PyInt 0]} []
  = (Raise (Exn TypeError "'int' object is not subscriptable"), []).
Proof.
  apply (forward_cache_error (H := Example.toy) Example.model Example.ids None None
           None None None None PyNone None None None {["cache" := PyInt 0]} None
           (Exn TypeError "'int' object is not subscriptable")).
  - intros Hx. vm_compute in Hx. discriminate Hx.
  - reflexivity.
Defined.

(* ----------------------------------------------------------------- *)
(** *** [QWenForCausalLMInferenceModel.forward] and the wrapped model *)

Section CausalLMForward.
Context `{Framework}.
Import QWenForCausalLMInferenceModel.

Variables (self : QWenForCausalLMInferenceModel.t)
  (input_ids position_ids : option (tensor Z))
  (attention_mask inputs_embeds : option (tensor Q))
  (use_cache : option bool)
  (cache_kvs pre_caches : option (list (tensor Q)))
  (seq_len_encoder seq_len_decoder : option (tensor Z))
  (past_key_values : pyobj) (labels : option (tensor Z))
  (output_attentions output_hidden_states return_dict : option bool).

(** Extra X11.  The language-model [forward] ends as the wrapped model
    does: an exception of the wrapped model is handed on with the trace
    as the wrapped model left it, so neither the head nor the criterion
    is called; and whenever the wrapped model completes, so does the
    language model: its first output is always a tensor and its result
    always has the form [return_dict] asks for. *)
Theorem lm_forward_follows_wrapped_model (cache : pyobj) (tr : trace) :
  match
    QWenInferenceModel.forward (qwen self) input_ids position_ids attention_mask
      inputs_embeds use_cache cache_kvs pre_caches seq_len_encoder seq_len_decoder
      past_key_values
      (Some (default (QWenConfig.output_attentions (config self)) output_attentions))
      (Some (default (QWenConfig.output_hidden_states (config self)) output_hidden_states))
      (Some (default (QWenConfig.use_return_dict (config self)) return_dict))
      {["cache" := cache]} tr
  with
  | (Raise e, tr1) =>
      forward self input_ids position_ids attention_mask inputs_embeds use_cache
        cache cache_kvs pre_caches seq_len_encoder seq_len_decoder past_key_values
        labels output_attentions output_hidden_states return_dict tr = (Raise e, tr1)
  | (Ok outputs, tr1) =>
      exists out evs,
        forward self input_ids position_ids attention_mask inputs_embeds use_cache
          cache cache_kvs pre_caches seq_len_encoder seq_len_decoder past_key_values
          labels output_attentions output_hidden_states return_dict tr
        = (Ok out, tr1 ++ evs) /\
        map op_of evs = OpLmHead :: match labels with
                                    | Some _ => [OpCriterion]
                                    | None => []
                                    end
  end.
Proof.
  unfold forward, bind.
  match goal with |- context [QWenInferenceModel.forward ?a ?b ?c ?d ?e ?f ?g ?h ?i ?j ?k ?l ?m ?n ?o tr] =>
    destruct (QWenInferenceModel.forward a b c d e f g h i j k l m n o tr)
      as [[outputs|e0] tr1] eqn:Hinner; [|reflexivity];
    destruct (post_run _ _ _ _ _
                (forward_output_post a b c d e f g h i j k l m n o) Hinner)
      as (evs0 & _ & Hout)
  end.
  destruct (Hout outputs eq_refl) as (hs & ->). cbv zeta. simpl default.
  unfold lift, call, ret.
  destruct (default (QWenConfig.use_return_dict (config self)) return_dict);
    destruct labels; simpl; do 2 eexists;
    (split; [rewrite <- ?app_assoc; reflexivity | reflexivity]).
Qed.

(** Extra X12.  Called without a [cache] (the default, [None]), the
    language-model [forward] always ends in an exception and calls no
    operator: it runs the wrapped model in its encoder phase. *)
Theorem lm_forward_without_cache_raises (tr : trace) :
  exists e,
    forward self input_ids position_ids attention_mask inputs_embeds use_cache
      PyNone cache_kvs pre_caches seq_len_encoder seq_len_decoder past_key_values
      labels output_attentions output_hidden_states return_dict tr = (Raise e, tr).
Proof.
  unfold forward, bind.
  match goal with |- context [QWenInferenceModel.forward ?a ?b ?c ?d ?e ?f ?g ?h ?i ?j ?k ?l ?m ?n ?o tr] =>
    destruct (QWenInferenceModel.forward a b c d e f g h i j k l m n o tr)
      as [r tr1] eqn:Hinner;
    destruct (post_run _ _ _ _ _
                (forward_encoder_post a b c d e f g h i j k l m n o eq_refl) Hinner)
      as (evs & -> & -> & e0 & -> & _)
  end.
  exists e0. now rewrite app_nil_r.
Qed.

End CausalLMForward.

(** The example call, with a cache, completes with the head and the
    criterion called last. *)
Example lm_call_ops :
  map op_of Example.lm_trace
  = [OpEmbedding; OpRotary; OpBlock; OpRmsNorm; OpLmHead; OpCriterion].
Proof. reflexivity. Qed.

(* ----------------------------------------------------------------- *)
(** *** What [set_state_dict] leaves alone, and how it fails *)

Module FrameFacts.
Import QWenInferenceModel.

Lemma same_frame_refl self : same_frame self self.
Proof. repeat split. Qed.

Lemma same_frame_trans a b c : same_frame a b -> same_frame b c -> same_frame a c.
Proof.
  intros (H1 & H2 & H3 & H4 & H5 & H6 & H7 & H8) (G1 & G2 & G3 & G4 & G5 & G6 & G7 & G8).
  repeat split; try congruence. all: intros s; now rewrite G8.
Qed.

Lemma frame_bind {A B} (c : M t A) (k : A -> M t B) :
  (forall s, same_frame s (snd (c s))) ->
  (forall a s, same_frame s (snd (k a s))) ->
  forall s, same_frame s (snd (bind c k s)).
Proof.
  intros Hc Hk s. unfold bind. specialize (Hc s).
  destruct (c s) as [[a|e] s1]; simpl in *; [|exact Hc].
  exact (same_frame_trans _ _ _ Hc (Hk a s1)).
Qed.

Lemma frame_lift {A} (r : result A) s : same_frame s (snd (lift r s)).
Proof. apply same_frame_refl. Qed.

Lemma frame_get s : same_frame s (snd (get s)).
Proof. apply same_frame_refl. Qed.

Lemma frame_ret {A} (a : A) s : same_frame s (snd (ret a s)).
Proof. apply same_frame_refl. Qed.

Lemma frame_for_each {A} (body : A -> M t unit) l :
  (forall x s, same_frame s (snd (body x s))) ->
  forall s, same_frame s (snd (for_each l body s)).
Proof.
  intros Hb. induction l as [|x l IH]; intros s; simpl.
  - apply same_frame_refl.
  - apply frame_bind; [apply Hb | intros _; apply IH].
Qed.

Lemma length_slot_put s s' l b :
  length l = length (slot_get s b) ->
  length (slot_get s' (slot_put s l b)) = length (slot_get s' b).
Proof. destruct s, s'; simpl; auto. Qed.

End FrameFacts.

Section SetStateDictFrame.
Context `{Framework}.
Import QWenInferenceModel FrameFacts.

Variable state_dict : gmap string (tensor Q).

Lemma assign_frame sl idx v s : same_frame s (snd (assign sl idx v s)).
Proof.
  unfold assign, bind, get, lift, modify.
  destruct (list_getitem (slot_get sl (transformer_block s)) idx) as [p|e]; simpl;
    [|apply same_frame_refl].
  repeat split. intros s'. simpl. apply length_slot_put, length_insert.
Qed.

Lemma load_layer_frame idx s : same_frame s (snd (load_layer state_dict idx s)).
Proof.
  revert s. unfold load_layer.
  repeat lazymatch goal with
         | |- forall s, same_frame s (snd (bind _ _ s)) =>
             apply frame_bind;
             [first [apply frame_get | apply frame_lift | apply assign_frame] | intros ?]
         end.
  apply assign_frame.
Qed.

(** Extra X13.  Whatever the state dictionary holds and however the call
    ends, [set_state_dict] touches nothing but weights: the
    configuration, the sizes, the head-dimension tensor, the epsilon of
    the final norm and the number of parameters in each slot list of the
    fused block are afterwards what they were. *)
Theorem set_state_dict_keeps_frame (self : QWenInferenceModel.t) :
  same_frame self (snd (set_state_dict state_dict self)).
Proof.
  revert self. unfold set_state_dict.
  apply frame_bind; [apply frame_get | intros self0].
  apply frame_bind; [apply frame_lift | intros head_size].
  apply frame_bind; [apply frame_lift | intros w].
  apply frame_bind; [intros s; repeat split | intros _].
  apply frame_bind; [apply frame_lift | intros w'].
  apply frame_bind; [apply frame_lift | intros v].
  apply frame_bind; [intros s; repeat split | intros _].
  apply frame_for_each. apply load_layer_frame.
Qed.

(** Extra X14.  [set_state_dict] reads before it writes, in the order of
    its lines: with no attention heads it ends in the division by zero
    of its first line; a dictionary without ["qwen.wte.weight"] ends it
    in a [KeyError] with the model untouched; one that has it but lacks
    ["qwen.ln_f.weight"] ends it in a [KeyError] with the embedding
    table already replaced and nothing else. *)
Theorem set_state_dict_missing_top_key (self : QWenInferenceModel.t) :
  (num_attention_heads self = 0%Z ->
   set_state_dict state_dict self
   = (Raise (Exn ZeroDivisionError "integer division or modulo by zero"), self)) /\
  (num_attention_heads self <> 0%Z ->
   state_dict !! "qwen.wte.weight" = None ->
   set_state_dict state_dict self = (Raise (Exn KeyError "qwen.wte.weight"), self)) /\
  (num_attention_heads self <> 0%Z ->
   forall w,
     state_dict !! "qwen.wte.weight" = Some w ->
     state_dict !! "qwen.ln_f.weight" = None ->
     set_state_dict state_dict self
     = (Raise (Exn KeyError "qwen.ln_f.weight"),
        with_wte (set_value (wte self) (to_tensor w None)) self)).
Proof.
  unfold set_state_dict, bind, get, lift, modify, py_floordiv, dict_getitem.
  split; [|split].
  - intros ->. reflexivity.
  - intros Hz Hw. destruct (Z.eqb_spec (num_attention_heads self) 0); [contradiction|].
    now rewrite Hw.
  - intros Hz w Hw Hl. destruct (Z.eqb_spec (num_attention_heads self) 0); [contradiction|].
    now rewrite Hw, Hl.
Qed.

End SetStateDictFrame.

Lemma set_state_dict_missing_top_key_witness :
  QWenInferenceModel.set_state_dict (H := Example.toy) ∅ Example.model
  = (Raise (Exn KeyError "qwen.wte.weight"), Example.model).
Proof.
  apply (proj1 (proj2 (set_state_dict_missing_top_key (H := Example.toy) ∅
                         Example.model))).
  - discriminate.
  - reflexivity.
Defined.

(* ----------------------------------------------------------------- *)
(** *** The loop of [set_state_dict] *)

Section NoLayerLoaded.
Context `{Framework}.
Import QWenInferenceModel.

Variable state_dict : gmap string (tensor Q).

(** Extra X15.  Whatever the state dictionary holds, complete or with a
    name of some layer missing, [set_state_dict] ends in an exception
    before its loop over the layers: no parameter of the fused block and
    not the weight of the final norm is replaced, and the embedding
    table is either as it was or holds ["qwen.wte.weight"].  So a name
    missing for a layer never shows as a [KeyError]. *)
Theorem set_state_dict_never_loads_a_layer (self : QWenInferenceModel.t) :
  exists e self',
    set_state_dict state_dict self = (Raise e, self') /\
    transformer_block self' = transformer_block self /\
    ln_f self' = ln_f self /\
    (wte self' = wte self \/
     exists w, state_dict !! "qwen.wte.weight" = Some w /\
               wte self' = set_value (wte self) (to_tensor w None)) /\
    forall idx suffix, e <> Exn KeyError (layer_key idx suffix).
Proof.
  assert (Hkey : forall k idx suffix,
             (k = "qwen.wte.weight" \/ k = "qwen.ln_f.weight") ->
             Exn KeyError k <> Exn KeyError (layer_key idx suffix)).
  { intros k idx suffix Hk Heq. injection Heq as Heq. unfold layer_key in Heq.
    destruct Hk as [-> | ->]; simpl in Heq; discriminate. }
  unfold set_state_dict, bind, get, lift, modify, py_floordiv, dict_getitem.
  destruct (Z.eqb_spec (num_attention_heads self) 0) as [Hz|Hz];
    [|destruct (state_dict !! "qwen.wte.weight") as [w1|] eqn:Hw1;
      [destruct (state_dict !! "qwen.ln_f.weight") as [w2|] eqn:Hw2|]].
  all: do 2 eexists; (split; [reflexivity|]); cbn [snd];
    (split; [reflexivity|]); (split; [reflexivity|]);
    (split; [first [now left | right; eexists; split; reflexivity]|]);
    intros idx suffix; first [discriminate | apply Hkey; auto].
Qed.

End NoLayerLoaded.

(** The dictionary of [Example] without the bias of layer 0 ends as the
    complete one does. *)
Example set_state_dict_incomplete_example :
  QWenInferenceModel.set_state_dict (H := Example.toy)
    (delete "qwen.h.0.attn.c_attn.bias" Example.state_dict) Example.model
  = (Raise (Exn TypeError "set_value() got an unexpected keyword argument 'dtype'"),
     QWenInferenceModel.with_wte (Example.vec [5]%Q) Example.model).
Proof. vm_compute. reflexivity. Qed.

(* ----------------------------------------------------------------- *)
(** *** [QWenForCausalLMInferenceModel.set_state_dict] *)

Module PyDictFacts.

Lemma collect_items {V} (d : gmap string V) (l : list (string * V)) :
  (forall k v, In (k, v) l -> d !! k = Some v) ->
  collect (fun k => let+ v := dict_getitem d k in Ok (k, v)) (map fst l) = Ok l.
Proof.
  induction l as [|[k v] l IH]; intros Hl; simpl; [reflexivity|].
  unfold dict_getitem at 1. rewrite (Hl k v) by now left. simpl.
  rewrite IH by (intros k' v' Hin; apply Hl; now right). reflexivity.
Qed.

(** The comprehension [{k: d[k] for k in d.keys()}] never raises and
    gives a dictionary equal to [d]. *)
Lemma dict_copy_id {V} (d : gmap string V) : dict_copy d = Ok d.
Proof.
  unfold dict_copy. rewrite collect_items.
  - simpl. now rewrite list_to_map_to_list.
  - intros k v Hin. apply elem_of_map_to_list. now apply list_elem_of_In.
Qed.

End PyDictFacts.

Section CausalLMSetStateDict.
Context `{Framework}.
Import QWenForCausalLMInferenceModel PyDictFacts.

(** Extra X16.  The language model's [set_state_dict] replaces the
    weight of the head exactly when the dictionary has
    ["lm_head.weight"], and then loads the wrapped model from a copy of
    the dictionary that equals it: the call ends as the wrapped model's
    [set_state_dict] on the same dictionary does, and the head stays
    replaced when that one raises. *)
Theorem lm_set_state_dict_head_then_model
    (state_dict : gmap string (tensor Q)) (self : t) :
  set_state_dict state_dict self
  = let (r, q) := QWenInferenceModel.set_state_dict state_dict (qwen self) in
    (r, mk (config self) q
          match state_dict !! "lm_head.weight" with
          | Some w => set_value (lm_head self) w
          | None => lm_head self
          end).
Proof.
  unfold set_state_dict, bind, lift, modify, ret, on_qwen.
  rewrite dict_copy_id.
  destruct (state_dict !! "lm_head.weight") as [w|] eqn:Hw.
  - rewrite bool_decide_eq_true_2 by eauto.
    unfold dict_getitem. rewrite Hw. simpl.
    destruct (QWenInferenceModel.set_state_dict state_dict (qwen self)); reflexivity.
  - rewrite bool_decide_eq_false_2 by (intros [? ?]; discriminate).
    simpl. destruct self as [c q l]. simpl.
    destruct (QWenInferenceModel.set_state_dict state_dict q); reflexivity.
Qed.

End CausalLMSetStateDict.

(** The dictionary of [Example] with a head added, on the language
    model of [Example]: the head and the embedding table are replaced
    before the wrapped model raises. *)
Example lm_set_state_dict_example :
  exists e self',
    QWenForCausalLMInferenceModel.set_state_dict (H := Example.toy)
      (<["lm_head.weight" := Example.vec [9]%Q]> Example.state_dict) Example.lm
    = (Raise e, self') /\
    QWenForCausalLMInferenceModel.lm_head self' = Example.vec [9]%Q /\
    QWenInferenceModel.wte (QWenForCausalLMInferenceModel.qwen self')
    = Example.vec [5]%Q.
Proof. do 2 eexists. split; [vm_compute; reflexivity|]. split; reflexivity. Qed.

(* ----------------------------------------------------------------- *)
(** *** The offsets of [remove_padding] *)

Module OffsetFacts.
Import ReductionFacts.

Lemma zsum_firstn_mono l : forall i j,
  Forall (fun v => (0 <= v)%Z) l -> i <= j ->
  (zsum (firstn i l) <= zsum (firstn j l))%Z.
Proof.
  induction l as [|v l IH]; intros i j Hl Hij.
  - now rewrite !firstn_nil.
  - inversion Hl as [|? ? Hv Hl']; subst.
    destruct i as [|i], j as [|j]; try lia.
    + change (firstn (S j) (v :: l)) with (v :: firstn j l).
      specialize (IH 0 j Hl' ltac:(lia)). unfold zsum in *. simpl in *. lia.
    + change (firstn (S i) (v :: l)) with (v :: firstn i l).
      change (firstn (S j) (v :: l)) with (v :: firstn j l).
      specialize (IH i j Hl' ltac:(lia)). unfold zsum in *. simpl. lia.
Qed.

(** The last running sum is the whole sum, when nothing wraps around. *)
Lemma last_cumsum_from dt w l : forall acc,
  int_bits dt = Some w ->
  Forall (fun v => (0 <= v)%Z) l ->
  (0 <= acc)%Z -> (acc + zsum l < 2 ^ (w - 1))%Z ->
  l <> [] ->
  List.last (cumsum_from dt acc l) 0%Z = (acc + zsum l)%Z.
Proof.
  induction l as [|v l IH]; intros acc Hw Hl Hacc Hsum Hne; [congruence|].
  inversion Hl as [|? ? Hv Hl']; subst.
  pose proof (zsum_nonneg l Hl') as Hnn.
  assert (Htot : zsum (v :: l) = (v + zsum l)%Z) by reflexivity.
  assert (Hstep : wrap dt (acc + v) = (acc + v)%Z).
  { apply (wrap_small dt w); [exact Hw|].
    assert (0 < 2 ^ (w - 1))%Z by (apply Z.pow_pos_nonneg; destruct dt; inversion Hw; lia).
    lia. }
  change (cumsum_from dt acc (v :: l))
    with (wrap dt (acc + v) :: cumsum_from dt (wrap dt (acc + v)) l).
  rewrite Hstep.
  destruct l as [|u l].
  - unfold zsum. simpl. lia.
  - change (List.last ((acc + v)%Z :: cumsum_from dt (acc + v) (u :: l)) 0%Z)
      with (List.last (cumsum_from dt (acc + v) (u :: l)) 0%Z).
    rewrite IH by (auto; try lia; discriminate). lia.
Qed.

Lemma zsum_rsub m l :
  (zsum (map (fun v => m - v) l) + zsum l = Z.of_nat (length l) * m)%Z.
Proof.
  induction l as [|v l IH]; unfold zsum in *; simpl length; simpl fold_right; [lia|].
  rewrite Nat2Z.inj_succ. simpl map. simpl fold_right. lia.
Qed.

End OffsetFacts.

Section RemovePaddingOffsets.
Context `{Framework}.
Import QWenInferenceModel ReductionFacts OffsetFacts.

(** Extra X17.  For lengths that fit the integer dtype of their tensor,
    the cumulative offsets [remove_padding] hands to the padding-offset
    operator are never negative and never decrease, and the last one is
    the whole padding of the batch: together with the number of tokens
    it makes up the number of sequences times the longest length. *)
Theorem remove_padding_offsets_grow (input_ids : option (tensor Z))
    (seq_lens_this_time : tensor Z) (M : Z) tr out tr' :
  lengths_fit seq_lens_this_time M ->
  remove_padding input_ids (Some seq_lens_this_time) tr = (Ok out, tr') ->
  exists (cum_offsets_now : tensor Z) (m : Z),
    tr' = tr ++ [CallGetPaddingOffset input_ids cum_offsets_now
                   (tsum seq_lens_this_time) seq_lens_this_time] /\
    tmax seq_lens_this_time = Ok m /\
    (forall i, i < length (t_data cum_offsets_now) ->
       (0 <= nth i (t_data cum_offsets_now) 0)%Z) /\
    (forall i j, i <= j -> j < length (t_data cum_offsets_now) ->
       (nth i (t_data cum_offsets_now) 0 <= nth j (t_data cum_offsets_now) 0)%Z) /\
    (List.last (t_data cum_offsets_now) 0 + tsum seq_lens_this_time
     = Z.of_nat (length (t_data seq_lens_this_time)) * m)%Z.
Proof.
  intros Hfit Hrun. unfold remove_padding, bind, lift, call, ret in Hrun.
  destruct (tmax seq_lens_this_time) as [m|e] eqn:Hmax; [|discriminate].
  assert (Hne : t_data seq_lens_this_time <> [])
    by (intros Hnil; unfold tmax in Hmax; rewrite Hnil in Hmax; discriminate).
  destruct (tmax_spec _ Hne) as (m' & Hmax' & Hin & Hle).
  assert (m' = m) as -> by congruence.
  destruct (gaps_fit _ M m Hfit Hin Hle) as (w & Hw & Hgaps & Hnn & Hsum & Hts).
  destruct (get_padding_offset input_ids (cumsum (rsub_scalar m seq_lens_this_time))
              (tsum seq_lens_this_time) seq_lens_this_time) as [[o1 o2] o3].
  injection Hrun as _ <-.
  exists (cumsum (rsub_scalar m seq_lens_this_time)), m.
  split; [reflexivity|]. split; [reflexivity|].
  unfold cumsum. cbn [t_data]. rewrite Hgaps.
  change (t_dtype (rsub_scalar m seq_lens_this_time)) with (t_dtype seq_lens_this_time).
  set (gaps := map (fun v => (m - v)%Z) (t_data seq_lens_this_time)) in *.
  rewrite length_cumsum_from. split; [|split].
  - intros i Hi. rewrite (nth_cumsum_from _ w) by (auto; lia).
    pose proof (zsum_firstn_mono gaps 0 (S i) Hnn ltac:(lia)) as Hm.
    change (zsum (firstn 0 gaps)) with 0%Z in Hm. lia.
  - intros i j Hij Hj. rewrite !(nth_cumsum_from _ w) by (auto; lia).
    pose proof (zsum_firstn_mono gaps (S i) (S j) Hnn ltac:(lia)). lia.
  - assert (Hg : gaps <> [])
      by (unfold gaps; destruct (t_data seq_lens_this_time); [congruence | discriminate]).
    rewrite (last_cumsum_from _ w) by (auto; lia).
    rewrite Hts. pose proof (zsum_rsub m (t_data seq_lens_this_time)) as Hs.
    fold gaps in Hs. lia.
Qed.

End RemovePaddingOffsets.

Lemma remove_padding_offsets_grow_witness :
  exists (cum_offsets_now : tensor Z) (m : Z),
    [CallGetPaddingOffset (Some Example.ids) (mkTensor DInt32 [3] [3; 3; 5]%Z) 10
       (mkTensor DInt32 [3] [2; 5; 3]%Z)]
    = [] ++ [CallGetPaddingOffset (Some Example.ids) cum_offsets_now
               (tsum (mkTensor DInt32 [3] [2; 5; 3]%Z))
               (mkTensor DInt32 [3] [2; 5; 3]%Z)] /\
    tmax (mkTensor DInt32 [3] [2; 5; 3]%Z) = Ok m /\
    (forall i, i < length (t_data cum_offsets_now) ->
       (0 <= nth i (t_data cum_offsets_now) 0)%Z) /\
    (forall i j, i <= j -> j < length (t_data cum_offsets_now) ->
       (nth i (t_data cum_offsets_now) 0 <= nth j (t_data cum_offsets_now) 0)%Z) /\
    (List.last (t_data cum_offsets_now) 0 + 10 = 3 * m)%Z.
Proof.
  apply (remove_padding_offsets_grow (H := Example.toy) (Some Example.ids)
           (mkTensor DInt32 [3] [2; 5; 3]%Z) 5 []
           (Some Example.ids, Some (mkTensor DInt32 [3] [2; 5; 3]%Z),
            Some (mkTensor DInt32 [3] [3; 3; 5]%Z))).
  - split.
    + intros v Hv. simpl in Hv. intuition lia.
    + exists 32%Z. split; [reflexivity|]. simpl. lia.
  - reflexivity.
Defined.

(* ----------------------------------------------------------------- *)
(** *** The dictionary of [prepare_inputs_for_generation] *)

Section PreparedInputs.
Context `{Framework}.
Import QWenForCausalLMInferenceModel.

(** Extra X18.  [prepare_inputs_for_generation] returns a dictionary of
    exactly nine names, in which [cache_kvs], [seq_len_encoder] and
    [seq_len_decoder] are the arguments as given and [cache] and
    [pre_caches] are the keywords as given ([None] when absent), in
    either phase.  It raises only a [TypeError], and only when the mask
    of the phase ([tgt_generation_mask] with a cache, the
    [attention_mask] keyword without) is [None], a tuple or a list. *)
Theorem prepare_inputs_for_generation_hands_through
    (input_ids cache_kvs seq_len_encoder seq_len_decoder
     tgt_ids tgt_pos tgt_generation_mask : pyobj)
    (kwargs : gmap string pyobj) :
  let mask :=
    if is_none (kwargs_get kwargs "cache")
    then kwargs_get kwargs "attention_mask"
    else tgt_generation_mask in
  match
    prepare_inputs_for_generation input_ids cache_kvs seq_len_encoder
      seq_len_decoder tgt_ids tgt_pos tgt_generation_mask kwargs
  with
  | Ok model_inputs =>
      dom model_inputs
      = list_to_set ["input_ids"; "inputs_embeds"; "position_ids"; "attention_mask";
                     "cache_kvs"; "seq_len_encoder"; "seq_len_decoder"; "cache";
                     "pre_caches"] /\
      model_inputs !! "cache_kvs" = Some cache_kvs /\
      model_inputs !! "seq_len_encoder" = Some seq_len_encoder /\
      model_inputs !! "seq_len_decoder" = Some seq_len_decoder /\
      model_inputs !! "cache" = Some (kwargs_get kwargs "cache") /\
      model_inputs !! "pre_caches" = Some (kwargs_get kwargs "pre_caches") /\
      mask <> PyNone
  | Raise e =>
      exn_kind_of e = TypeError /\
      (mask = PyNone \/ exists l, mask = PyTuple l \/ mask = PyList l)
  end.
Proof.
  cbv zeta. unfold prepare_inputs_for_generation.
  destruct (is_none (kwargs_get kwargs "cache")); cbn [negb];
    match goal with
    | |- context [py_sub_int ?m 1] => destruct m
    end; unfold py_sub_int;
    try match goal with
        | |- context [int_bits ?d] => destruct (int_bits d)
        end;
    simpl; eauto 6;
    (split; [rewrite !dom_insert_L, dom_empty_L; set_solver|]);
    repeat split; discriminate.
Qed.

End PreparedInputs.

(** Without a cache and without an [attention_mask] keyword the call
    fails on [None - 1]. *)
Example prepare_inputs_without_mask :
  QWenForCausalLMInferenceModel.prepare_inputs_for_generation (H := Example.toy)
    (PyIntTensor Example.ids) PyNone PyNone PyNone PyNone PyNone PyNone ∅
  = Raise (Exn TypeError "unsupported operand type(s) for -").
Proof. reflexivity. Qed.

(* ----------------------------------------------------------------- *)
(** *** The shape of what [QWenInferenceModel.forward] returns *)

Section ForwardShape.
Context `{Framework}.
Import QWenInferenceModel.

Variables (self : QWenInferenceModel.t)
  (input_ids position_ids : option (tensor Z))
  (attention_mask inputs_embeds : option (tensor Q))
  (use_cache : option bool)
  (cache_kvs pre_caches : option (list (tensor Q)))
  (seq_len_encoder seq_len_decoder : option (tensor Z))
  (past_key_values : pyobj)
  (output_attentions output_hidden_states return_dict : option bool)
  (kwargs : gmap string pyobj).

(** Extra X19.  A completed call hands back, as its first output, the
    result of the final norm in the shape of the input: the shape of
    [input_ids] followed by the hidden size the embedding has, or else
    the shape of [inputs_embeds], which has three axes. *)
Theorem forward_output_shape tr out tr' :
  forward self input_ids position_ids attention_mask inputs_embeds use_cache
    cache_kvs pre_caches seq_len_encoder seq_len_decoder past_key_values
    output_attentions output_hidden_states return_dict kwargs tr = (Ok out, tr') ->
  exists hs,
    QWenForCausalLMInferenceModel.output_first out = Ok hs /\
    match input_ids, inputs_embeds with
    | Some ids, _ =>
        exists h, shape_last (t_shape (embedding (wte self) ids)) = Ok h /\
                  t_shape hs = t_shape ids ++ [h]
    | None, Some e => length (t_shape e) = 3 /\ t_shape hs = t_shape e
    | None, None => False
    end.
Proof.
  intros Hrun.
  match type of Hrun with ?c tr = _ =>
    assert (Hpost : post c (fun r _ => forall out, r = Ok out ->
      exists hs,
        QWenForCausalLMInferenceModel.output_first out = Ok hs /\
        match input_ids, inputs_embeds with
        | Some ids, _ =>
            exists h, shape_last (t_shape (embedding (wte self) ids)) = Ok h /\
                      t_shape hs = t_shape ids ++ [h]
        | None, Some e => length (t_shape e) = 3 /\ t_shape hs = t_shape e
        | None, None => False
        end))
  end.
  { unfold forward, remove_padding, FusedQWenRMSNorm.forward. cbv zeta.
    repeat mstep.
    all: intros o Ho; try discriminate.
    all: injection Ho as <-.
    all: eexists; (split; [reflexivity|]).
    all: simpl in *; simplify_eq.
    all: unfold reshape, unpack3 in *; repeat case_match; simplify_eq.
    all: cbn [t_shape removelast app shape_last rev] in *; simplify_eq.
    all: try (eexists; split; [eassumption | reflexivity]).
    all: try (split; reflexivity).
    all: eexists; split; reflexivity. }
  destruct (post_run _ _ _ _ _ Hpost Hrun) as (evs & _ & Hout).
  exact (Hout out eq_refl).
Qed.

End ForwardShape.

Lemma forward_output_shape_witness :
  exists hs,
    QWenForCausalLMInferenceModel.output_first Example.decoder_output = Ok hs /\
    exists h,
      shape_last (t_shape (embedding (Framework := Example.toy)
                             (QWenInferenceModel.wte Example.model) Example.ids)) = Ok h /\
      t_shape hs = t_shape Example.ids ++ [h].
Proof.
  apply (forward_output_shape (H := Example.toy) Example.model (Some Example.ids)
           None None None None None None None None PyNone None None None
           {["cache" := Example.cache]} [] Example.decoder_output
           Example.decoder_trace).
  reflexivity.
Defined.

(** The same on the embeddings path: two tokens given as hidden states
    of size two come back in that shape. *)
Example forward_inputs_embeds_shape :
  exists hs tr',
    QWenInferenceModel.forward (H := Example.toy) Example.model None None None
      (Some (mkTensor DFloat32 [1; 2; 2] [1; 2; 3; 4]%Q)) None None None None None
      PyNone None None None {["cache" := Example.cache]} []
    = (Ok (TupleOutput [OutTensor hs; OutTuple []]), tr') /\
    t_shape hs = [1; 2; 2] /\
    map op_of tr' = [OpRotary; OpBlock; OpRmsNorm].
Proof. do 2 eexists. split; [vm_compute; reflexivity|]. split; reflexivity. Qed.
